(** * tailgaters / plot.py : live heat map of power over azimuth and elevation

    A shallow embedding of [plot.py] and the properties of its
    interpolation-and-refresh loop.

    Conventions of the embedding.
    - A Python expression that can raise is a function into [result]; a
      statement with effects runs in the monad [M] over a [world]: the
      pyplot figure, the click on the close button that the GUI loop has
      not handled yet, and the trace of library calls made so far.
    - Floating point numbers are exact rationals ([Q]); rounding, infinities
      and NaN among the input values are outside the model.
    - pandas, numpy, scipy, matplotlib and watchdog are not part of the
      repository.  Each call the program makes is modelled by the documented
      behaviour of the library for the arguments the program passes; the
      modules [pd], [np], [scipy], [plt] and [watchdog] hold these models and
      each definition says which behaviour it stands for.
    - [os.path.abspath] and [os.path.dirname] are parameters.
    - The two threads (the watchdog observer and the main thread) are an
      interleaving of atomic steps: one per statement of [main], with the
      call of [interpolate_and_plot] split after [read_csv], and one per
      call of the handler. *)

From Stdlib Require Import QArith List String Bool Arith Lia.
Import ListNotations.

Set Implicit Arguments.

(* ------------------------------------------------------------------ *)
(** ** Python: exceptions and the effect monad *)

Definition path := string.

(** The exceptions the program can meet.  All but [KeyboardInterrupt] derive
    from [Exception]. *)
Inductive exn :=
| FileNotFoundError
| ParserError
| TypeError
| ValueError
| QhullError
| KeyboardInterrupt.

Definition derives_from_Exception (e : exn) : bool :=
  match e with
  | KeyboardInterrupt => false
  | _ => true
  end.

Inductive result (A : Type) :=
| ok (a : A)
| raised (e : exn).
Arguments ok {A} a.
Arguments raised {A} e.

(** Text written by [print]. *)
Inductive message :=
| msg_failed_to_read (csv_file : path) (e : exn)  (* line 24 *)
| msg_not_enough_data                             (* line 29 *)
| msg_file_changed (src_path : path)              (* line 88 *)
| msg_watching (csv_file : path)                  (* line 106 *)
| msg_usage.                                      (* line 129 *)

(** A Python number, or a [str] taken out of an object array. *)
Inductive scalar :=
| f64 (q : Q)
| pyobj.

(** What [plt.imshow], [plt.colorbar], ... put into the current figure.  In
    the image data [None] is NaN. *)
Inductive artist :=
| art_image (data : list (list (option Q))) (origin aspect : string)
            (extent : scalar * scalar * scalar * scalar)
| art_colorbar
| art_colorbar_label (s : string)
| art_scatter (xs ys : list Q) (marker : string)
| art_xlabel (s : string)
| art_ylabel (s : string)
| art_title (s : string).

(** Library calls whose arguments the properties speak about. *)
Inductive call :=
| call_print (m : message)
| call_read_csv (p : path)
| call_linspace (start stop : Q) (num : nat)
| call_griddata (points : list (Q * Q)) (values : list Q)
                (AZ EL : list (list Q))
| call_draw.

(** [figure = None]: pyplot has no figure number 1.  [Some arts]: figure 1
    exists and holds [arts] (oldest first).  [close_clicked]: the user has
    closed the window and the GUI event loop has not yet handled it. *)
Record world := mkWorld {
  figure : option (list artist);
  close_clicked : bool;
  trace : list call               (* oldest first *)
}.

Definition M (A : Type) := world -> result A * world.

Definition ret {A} (a : A) : M A := fun w => (ok a, w).
Definition raise {A} (e : exn) : M A := fun w => (raised e, w).
Definition bind {A B} (m : M A) (k : A -> M B) : M B :=
  fun w => match m w with
           | (ok a, w') => k a w'
           | (raised e, w') => (raised e, w')
           end.
Definition lift {A} (r : result A) : M A := fun w => (r, w).

(** Runs [m] and hands its outcome, value or exception, to the continuation. *)
Definition attempt {A} (m : M A) : M (result A) :=
  fun w => let (r, w') := m w in (ok r, w').

Declare Scope py_scope.
Delimit Scope py_scope with py.
Notation "x <- m ;; k" := (bind m (fun x => k))
  (at level 61, m at next level, right associativity) : py_scope.
Notation "m ;; k" := (bind m (fun _ => k))
  (at level 61, right associativity) : py_scope.
Open Scope py_scope.

Definition log (c : call) : M unit :=
  fun w => (ok tt, {| figure := figure w;
                      close_clicked := close_clicked w;
                      trace := trace w ++ [c] |}).

Definition print (m : message) : M unit := log (call_print m).

(* ------------------------------------------------------------------ *)
(** ** pandas *)

Module pd.

(** A field of the CSV text.  [Num q]: a field pandas reads as a number of
    a [float64] or [int64] column, with value [q].  [Str s]: text that
    neither pandas nor Python's [float] reads as a number.  Fields between
    the two (an integer beyond 64 bits, which pandas keeps as a Python
    [int]; text such as [1_000], which only [float] accepts) are outside
    the model. *)
Inductive cell :=
| Num (q : Q)
| Str (s : string).

(** One line read with [names=["time","power","azimuth","elevation"]]. *)
Record row := mkRow {
  time : cell;
  power : cell;
  azimuth : cell;
  elevation : cell
}.

Definition DataFrame := list row.

(** What is at a path when [read_csv] opens it.  [Table rows]: every line
    has exactly four fields.  [Ragged]: some line after the first has more
    fields than the first.  Lines with fewer than four fields (which pandas
    pads with NaN) are outside the model. *)
Inductive file :=
| Missing
| Ragged
| Table (rows : list row).

Definition filesystem := path -> file.

(** [pd.read_csv(p, header=None, names=[...])].  It raises
    [FileNotFoundError] for a missing file and [ParserError] for a line with
    too many fields.  A file without data does not make it raise: the column
    names are given by [names=], so the result is a frame of no rows.  A
    field that is not a number never makes it raise either: the column is
    read with dtype [object]. *)
Definition read_csv (fs : filesystem) (p : path) : result DataFrame :=
  match fs p with
  | Missing => raised FileNotFoundError
  | Ragged => raised ParserError
  | Table rows => ok rows
  end.

Definition column (f : row -> cell) (df : DataFrame) : list cell :=
  map f df.

End pd.

(* ------------------------------------------------------------------ *)
(** ** numpy *)

Module np.

(** An array is [float64] when every field of the column was a number and
    [object] otherwise. *)
Inductive ndarray :=
| float64 (xs : list Q)
| object (xs : list pd.cell).

Fixpoint numbers (cs : list pd.cell) : option (list Q) :=
  match cs with
  | [] => Some []
  | pd.Num q :: cs' =>
      match numbers cs' with
      | Some qs => Some (q :: qs)
      | None => None
      end
  | pd.Str _ :: _ => None
  end.

(** [df[name].to_numpy()]: [float64] for a column of numbers ([int64]
    columns are not told apart, the program only does arithmetic on them),
    [object] for a column holding text. *)
Definition to_numpy (cs : list pd.cell) : ndarray :=
  match numbers cs with
  | Some qs => float64 qs
  | None => object cs
  end.

Definition qmin (a b : Q) : Q := if Qle_bool a b then a else b.
Definition qmax (a b : Q) : Q := if Qle_bool a b then b else a.

(** [a.min()] and [a.max()].  On an empty array numpy raises [ValueError];
    on an object array of [str] the result is a [str]. *)
Definition min (a : ndarray) : result scalar :=
  match a with
  | float64 [] => raised ValueError
  | float64 (x :: xs) => ok (f64 (fold_left qmin xs x))
  | object [] => raised ValueError
  | object _ => ok pyobj
  end.

Definition max (a : ndarray) : result scalar :=
  match a with
  | float64 [] => raised ValueError
  | float64 (x :: xs) => ok (f64 (fold_left qmax xs x))
  | object [] => raised ValueError
  | object _ => ok pyobj
  end.

(** [np.linspace(start, stop, num)] for numbers: [num] evenly spaced
    samples over the closed interval, [start + i * (stop - start) / (num - 1)]
    for [i = 0 .. num - 1]. *)
Definition linspace_f64 (start stop : Q) (num : nat) : list Q :=
  map (fun i : nat =>
         start + inject_Z (Z.of_nat i)
                 * ((stop - start) / inject_Z (Z.of_nat (num - 1))))
      (seq 0 num).

(** [np.linspace] raises [TypeError] when an end point is a [str]. *)
Definition linspace (start stop : scalar) (num : nat) : M (list Q) :=
  match start, stop with
  | f64 a, f64 b =>
      log (call_linspace a b num) ;; ret (linspace_f64 a b num)
  | _, _ => raise TypeError
  end.

(** [np.meshgrid(xs, ys)] (default [indexing="xy"]): two arrays of shape
    [(len ys, len xs)]; the first repeats [xs] in every row, the second
    holds [ys[i]] throughout row [i]. *)
Definition meshgrid (xs ys : list Q) : list (list Q) * list (list Q) :=
  (map (fun _ => xs) ys, map (fun y => map (fun _ => y) xs) ys).

End np.

(* ------------------------------------------------------------------ *)
(** ** scipy.interpolate.griddata, method="linear"

    The documented behaviour: the input points are triangulated (Delaunay,
    by Qhull), and the value at a requested point is the barycentric
    combination of the values at the vertices of the triangle that holds it;
    a requested point in no triangle gets [fill_value], NaN by default.
    Qhull raises [QhullError] when the points do not span the plane (fewer
    than three points, or all on one line).

    The model computes over exact rationals.  Qhull and the point location
    of scipy work in binary64 with tolerances: points that are nearly on one
    line are rejected as well, and a requested point within rounding distance
    of the hull may get a number.  Neither is in the model, which is used
    only for what a pass does with the array it gets back and for samples
    that are exactly on one line. *)

Module scipy.

Definition point := (Q * Q)%type.
Definition sample := (point * Q)%type.
Definition triangle := (sample * sample * sample)%type.

(** Twice the signed area of the triangle [a b c]. *)
Definition orient (a b c : point) : Q :=
  (fst b - fst a) * (snd c - snd a) - (snd b - snd a) * (fst c - fst a).

Fixpoint pairs {A} (l : list A) : list (A * A) :=
  match l with
  | [] => []
  | x :: t => map (pair x) t ++ pairs t
  end.

Fixpoint triples {A} (l : list A) : list (A * A * A) :=
  match l with
  | [] => []
  | x :: t => map (fun yz => (x, fst yz, snd yz)) (pairs t) ++ triples t
  end.

Definition flat (t : triangle) : bool :=
  match t with
  | (a, b, c) => Qeq_bool (orient (fst a) (fst b) (fst c)) 0
  end.

(** Positive exactly when [d] is strictly inside the circle through
    [a], [b], [c] taken counterclockwise. *)
Definition in_circle (a b c d : point) : Q :=
  let adx := fst a - fst d in let ady := snd a - snd d in
  let bdx := fst b - fst d in let bdy := snd b - snd d in
  let cdx := fst c - fst d in let cdy := snd c - snd d in
  let ad2 := adx * adx + ady * ady in
  let bd2 := bdx * bdx + bdy * bdy in
  let cd2 := cdx * cdx + cdy * cdy in
  adx * (bdy * cd2 - cdy * bd2)
  - ady * (bdx * cd2 - cdx * bd2)
  + ad2 * (bdx * cdy - cdx * bdy).

Definition encloses (t : triangle) (d : point) : bool :=
  match t with
  | (a, b, c) =>
      negb (Qle_bool (in_circle (fst a) (fst b) (fst c) d
                      * orient (fst a) (fst b) (fst c)) 0)
  end.

(** The Delaunay triangles of the samples: the triangles with an empty
    circumcircle.  For four or more points on one circle this keeps every
    such triangle, overlapping ones included, and [interpolate] below takes
    the first that holds the point; Qhull keeps a triangulation without
    overlap, and which one is not documented. *)
Definition delaunay (ss : list sample) : list triangle :=
  filter (fun t => negb (flat t)
                   && forallb (fun s => negb (encloses t (fst s))) ss)
         (triples ss).

(** The samples are exactly on one line (or fewer than three). *)
Definition degenerate (ss : list sample) : bool :=
  forallb flat (triples ss).

(** Barycentric coordinates of [p] in [t]. *)
Definition weights (t : triangle) (p : point) : Q * Q * Q :=
  match t with
  | (a, b, c) =>
      let d := orient (fst a) (fst b) (fst c) in
      (orient p (fst b) (fst c) / d,
       orient (fst a) p (fst c) / d,
       orient (fst a) (fst b) p / d)
  end.

Definition holds (p : point) (t : triangle) : bool :=
  match weights t p with
  | (wa, wb, wc) => Qle_bool 0 wa && Qle_bool 0 wb && Qle_bool 0 wc
  end.

Definition blend (t : triangle) (p : point) : Q :=
  match t, weights t p with
  | (a, b, c), (wa, wb, wc) => wa * snd a + wb * snd b + wc * snd c
  end.

Definition interpolate (tris : list triangle) (p : point) : option Q :=
  match find (holds p) tris with
  | Some t => Some (blend t p)
  | None => None
  end.

Fixpoint zip_with {A B C} (f : A -> B -> C) (l : list A) (l' : list B)
  : list C :=
  match l, l' with
  | a :: t, b :: t' => f a b :: zip_with f t t'
  | _, _ => []
  end.

Definition griddata_f64 (ss : list sample) (AZ EL : list (list Q))
  : list (list (option Q)) :=
  let tris := delaunay ss in
  zip_with (zip_with (fun x y => interpolate tris (x, y))) AZ EL.

(** [griddata((xs, ys), values, (AZ, EL), method="linear")].  Values that
    are not numbers cannot be converted to floats ([ValueError]: a [Str]
    is text that [float] refuses); when the points are degenerate as well,
    which of the two errors is raised depends on the version of scipy. *)
Definition griddata (xs ys values : np.ndarray) (AZ EL : list (list Q))
  : M (list (list (option Q))) :=
  match xs, ys, values with
  | np.float64 xs, np.float64 ys, np.float64 vs =>
      let pts := combine xs ys in
      log (call_griddata pts vs AZ EL) ;;
      let ss := combine pts vs in
      if degenerate ss then raise QhullError
      else ret (griddata_f64 ss AZ EL)
  | _, _, _ => raise ValueError
  end.

End scipy.

(* ------------------------------------------------------------------ *)
(** ** matplotlib.pyplot *)

Module plt.

Definition set_figure (f : option (list artist)) : M unit :=
  fun w => (ok tt, {| figure := f;
                      close_clicked := close_clicked w;
                      trace := trace w |}).

(** [plt.ion()] switches interactive mode on; it opens no figure. *)
Definition ion : M unit := ret tt.

Definition fignum_exists_1 : M bool :=
  fun w => (ok (match figure w with Some _ => true | None => false end), w).

(** [plt.clf()] clears the current figure, opening figure 1 first when
    there is none. *)
Definition clf : M unit := set_figure (Some []).

(** Drawing calls act on the current axes, opening figure 1 when there is
    none. *)
Definition add (a : artist) : M unit :=
  fun w => set_figure (Some (match figure w with
                             | Some arts => arts ++ [a]
                             | None => [a]
                             end)) w.

Definition imshow data origin aspect extent : M unit :=
  add (art_image data origin aspect extent).
Definition colorbar : M unit := add art_colorbar.
Definition set_label (s : string) : M unit := add (art_colorbar_label s).
Definition scatter (xs ys : np.ndarray) (marker : string) : M unit :=
  match xs, ys with
  | np.float64 xs, np.float64 ys => add (art_scatter xs ys marker)
  | _, _ => raise TypeError
  end.
Definition xlabel (s : string) : M unit := add (art_xlabel s).
Definition ylabel (s : string) : M unit := add (art_ylabel s).
Definition title (s : string) : M unit := add (art_title s).
Definition draw : M unit := log call_draw.

(** [plt.pause(t)] runs the GUI event loop for [t] seconds: a click on the
    close button is handled here and removes the figure. *)
Definition pause : M unit :=
  fun w => if close_clicked w
           then (ok tt, {| figure := None;
                           close_clicked := false;
                           trace := trace w |})
           else (ok tt, w).

End plt.

(* ------------------------------------------------------------------ *)
(** ** watchdog *)

Module watchdog.

Inductive event_type := moved | deleted | created | modified | closed | opened.

Record FileSystemEvent := mkEvent {
  kind : event_type;
  src_path : path;
  is_directory : bool
}.

End watchdog.

(* ------------------------------------------------------------------ *)
(** ** plot.py *)

Module plot.

Section Program.

(** [os.path.abspath] and [os.path.dirname], for the working directory the
    process runs in. *)
Variable abspath : path -> path.
Variable dirname : path -> path.

(** *** interpolate_and_plot (lines 15-72) *)

(** Line 22: the call to [pd.read_csv]. *)
Definition load (fs : pd.filesystem) (csv_file : path) : M pd.DataFrame :=
  log (call_read_csv csv_file) ;; lift (pd.read_csv fs csv_file).

(** Lines 27-72, run once [df] is bound. *)
Definition plot_frame (df : pd.DataFrame) : M unit :=
  if (List.length df <? 2)%nat then
    print msg_not_enough_data                                  (* return *)
  else
    let azimuths := np.to_numpy (pd.column pd.azimuth df) in
    let elevations := np.to_numpy (pd.column pd.elevation df) in
    let power := np.to_numpy (pd.column pd.power df) in
    az_min <- lift (np.min azimuths) ;;
    az_max <- lift (np.max azimuths) ;;
    el_min <- lift (np.min elevations) ;;
    el_max <- lift (np.max elevations) ;;
    let num_points := 100%nat in
    az_grid <- np.linspace az_min az_max num_points ;;
    el_grid <- np.linspace el_min el_max num_points ;;
    let '(AZ, EL) := np.meshgrid az_grid el_grid in
    power_grid <- scipy.griddata azimuths elevations power AZ EL ;;
    plt.clf ;;
    plt.imshow power_grid "lower"%string "auto"%string
               (az_min, az_max, el_min, el_max) ;;
    plt.colorbar ;;
    plt.set_label "Power"%string ;;
    plt.scatter azimuths elevations "."%string ;;
    plt.xlabel "Azimuth"%string ;;
    plt.ylabel "Elevation"%string ;;
    plt.title "Interpolated Power Heatmap"%string ;;
    plt.draw.

(** Lines 23-25 when [read_csv] raised, lines 27-72 when it returned. *)
Definition after_load (csv_file : path) (r : result pd.DataFrame) : M unit :=
  match r with
  | raised e =>
      if derives_from_Exception e
      then print (msg_failed_to_read csv_file e)               (* return *)
      else raise e
  | ok df => plot_frame df
  end.

Definition interpolate_and_plot (fs : pd.filesystem) (csv_file : path)
  : M unit :=
  r <- attempt (load fs csv_file) ;;
  after_load csv_file r.

(** *** CSVFileChangeHandler (lines 74-89) *)

Record CSVFileChangeHandler := mkHandler { target_path : path }.

(** [__init__] *)
Definition new_handler (target : path) : CSVFileChangeHandler :=
  {| target_path := abspath target |}.

(** The module-level flag (line 13) together with the world. *)
Record globals := mkGlobals {
  file_changed : bool;
  wld : world
}.

Definition on_modified (self : CSVFileChangeHandler)
  (event : watchdog.FileSystemEvent) (g : globals) : globals :=
  if String.eqb (abspath (watchdog.src_path event)) (target_path self) then
    {| file_changed := true;
       wld := snd (print (msg_file_changed (watchdog.src_path event))
                         (wld g)) |}
  else g.

(** [FileSystemEventHandler.dispatch]: the method named after the event
    type is called; the class overrides [on_modified] only, the inherited
    methods do nothing. *)
Definition dispatch (self : CSVFileChangeHandler)
  (event : watchdog.FileSystemEvent) (g : globals) : globals :=
  match watchdog.kind event with
  | watchdog.modified => on_modified self event g
  | _ => g
  end.

(** *** main (lines 91-125) and the script body (lines 127-133) *)

Inductive exit_status :=
| exit_code (n : nat)
| traceback (e : exn).          (* an exception nobody caught *)

(** Where the main thread stands. *)
Inductive pc :=
| at_initial_plot                             (* lines 95-96, before read_csv *)
| in_initial_plot (r : result pd.DataFrame)   (* line 96, after read_csv *)
| at_observer_start                           (* lines 99-106; the watched
                                                 directory exists *)
| at_fignum_check                             (* line 112 *)
| at_flag_test                                (* line 116 *)
| at_flag_clear                               (* line 117 *)
| at_replot                                   (* line 118, before read_csv *)
| in_replot (r : result pd.DataFrame)         (* line 118, after read_csv *)
| at_pause                                    (* line 120 *)
| at_finally (pending : option exn)           (* lines 124-125 *)
| exited (st : exit_status).

Inductive observer_state :=
| not_started
| started (handler : CSVFileChangeHandler) (watch_dir : path)
| stopped.

Record state := mkState {
  where_ : pc;
  observer : observer_state;
  fs : pd.filesystem;
  glob : globals
}.

Inductive label :=
| main_step                                 (* the main thread runs a statement *)
| fs_event (ev : watchdog.FileSystemEvent)  (* the observer thread delivers an event *)
| write_file (p : path) (f : pd.file)       (* some process rewrites a file *)
| click_close                               (* the user closes the window *)
| ctrl_c.                                   (* SIGINT reaches the main thread *)

Definition goto (l : pc) (s : state) : state :=
  {| where_ := l; observer := observer s; fs := fs s; glob := glob s |}.

Definition with_world (w' : world) (s : state) : state :=
  {| where_ := where_ s; observer := observer s; fs := fs s;
     glob := {| file_changed := file_changed (glob s); wld := w' |} |}.

Definition with_flag (b : bool) (s : state) : state :=
  {| where_ := where_ s; observer := observer s; fs := fs s;
     glob := {| file_changed := b; wld := wld (glob s) |} |}.

Definition with_observer (o : observer_state) (s : state) : state :=
  {| where_ := where_ s; observer := o; fs := fs s; glob := glob s |}.

Section Main.

Variable csv_file : path.

Definition main_thread (s : state) : state :=
  match where_ s with
  | at_initial_plot =>
      let (_, w1) := plt.ion (wld (glob s)) in
      let (r, w2) := load (fs s) csv_file w1 in
      goto (in_initial_plot r) (with_world w2 s)
  | in_initial_plot r =>
      match after_load csv_file r (wld (glob s)) with
      | (ok _, w') => goto at_observer_start (with_world w' s)
      | (raised e, w') => goto (exited (traceback e)) (with_world w' s)
      end
  | at_observer_start =>
      let event_handler := new_handler csv_file in
      let watch_dir := dirname (abspath csv_file) in
      let (_, w') := print (msg_watching csv_file) (wld (glob s)) in
      goto at_fignum_check
           (with_observer (started event_handler watch_dir)
                          (with_world w' s))
  | at_fignum_check =>
      match plt.fignum_exists_1 (wld (glob s)) with
      | (ok true, _) => goto at_flag_test s
      | _ => goto (at_finally None) s                          (* break *)
      end
  | at_flag_test =>
      if file_changed (glob s) then goto at_flag_clear s else goto at_pause s
  | at_flag_clear =>
      goto at_replot (with_flag false s)
  | at_replot =>
      let (r, w') := load (fs s) csv_file (wld (glob s)) in
      goto (in_replot r) (with_world w' s)
  | in_replot r =>
      match after_load csv_file r (wld (glob s)) with
      | (ok _, w') => goto at_pause (with_world w' s)
      | (raised KeyboardInterrupt, w') =>
          goto (at_finally None) (with_world w' s)             (* except: pass *)
      | (raised e, w') => goto (at_finally (Some e)) (with_world w' s)
      end
  | at_pause =>
      let (_, w') := plt.pause (wld (glob s)) in
      goto at_fignum_check (with_world w' s)
  | at_finally pending =>
      goto (exited (match pending with
                    | None => exit_code 0
                    | Some e => traceback e
                    end))
           (with_observer stopped s)
  | exited _ => s
  end.

(** [KeyboardInterrupt] raised between two statements of the main thread:
    caught by line 121 inside the [try], unhandled elsewhere. *)
Definition interrupt (s : state) : state :=
  match where_ s with
  | at_initial_plot | in_initial_plot _ | at_observer_start =>
      goto (exited (traceback KeyboardInterrupt)) s
  | at_fignum_check | at_flag_test | at_flag_clear
  | at_replot | in_replot _ | at_pause =>
      goto (at_finally None) s
  | at_finally _ => goto (exited (traceback KeyboardInterrupt)) s
  | exited _ => s
  end.

(** The observer thread calls the handler, while it is started and the
    process lives. *)
Definition deliver (ev : watchdog.FileSystemEvent) (s : state) : state :=
  match where_ s, observer s with
  | exited _, _ => s
  | _, started h _ =>
      {| where_ := where_ s; observer := observer s; fs := fs s;
         glob := dispatch h ev (glob s) |}
  | _, _ => s
  end.

Definition click (s : state) : state :=
  match figure (wld (glob s)) with
  | Some _ => with_world {| figure := figure (wld (glob s));
                            close_clicked := true;
                            trace := trace (wld (glob s)) |} s
  | None => s
  end.

Definition rewrite_file (p : path) (f : pd.file) (s : state) : state :=
  {| where_ := where_ s; observer := observer s;
     fs := fun q => if String.eqb q p then f else fs s q;
     glob := glob s |}.

Definition step (l : label) (s : state) : state :=
  match l with
  | main_step => main_thread s
  | fs_event ev => deliver ev s
  | write_file p f => rewrite_file p f s
  | click_close => click s
  | ctrl_c => interrupt s
  end.

Definition run (sched : list label) (s : state) : state :=
  fold_left (fun s l => step l s) sched s.

End Main.

Definition blank : world :=
  {| figure := None; close_clicked := false; trace := [] |}.

(** Lines 127-133: the state the process starts [main] in, or the usage
    error. *)
Definition start (argv : list string) (files : pd.filesystem) : state :=
  {| where_ := match argv with
               | _ :: _ :: _ => at_initial_plot
               | _ => exited (exit_code 1)
               end;
     observer := not_started;
     fs := files;
     glob := {| file_changed := false;
                wld := match argv with
                       | _ :: _ :: _ => blank
                       | _ => snd (print msg_usage blank)
                       end |} |}.

End Program.

End plot.

(* ------------------------------------------------------------------ *)
(** ** Vocabulary of the properties *)

(** A sample as the specification has it: three numbers and a time stamp
    (which the program never reads). *)
Record Sample := mkSample {
  s_time : pd.cell;
  s_power : Q;
  s_azimuth : Q;
  s_elevation : Q
}.

Definition SampleSet := list Sample.

(** The data frame [read_csv] returns for a file holding these samples. *)
Definition frame_of (ss : SampleSet) : pd.DataFrame :=
  map (fun s => pd.mkRow (s_time s) (pd.Num (s_power s))
                         (pd.Num (s_azimuth s)) (pd.Num (s_elevation s)))
      ss.

Definition azimuths_of (ss : SampleSet) : list Q := map s_azimuth ss.
Definition elevations_of (ss : SampleSet) : list Q := map s_elevation ss.
Definition powers_of (ss : SampleSet) : list Q := map s_power ss.

(** The points and the samples handed to the triangulation. *)
Definition points_of (ss : SampleSet) : list scipy.point :=
  combine (azimuths_of ss) (elevations_of ss).
Definition samples_of (ss : SampleSet) : list scipy.sample :=
  combine (points_of ss) (powers_of ss).

Definition is_min (m : Q) (xs : list Q) : Prop :=
  In m xs /\ forall x, In x xs -> m <= x.
Definition is_max (m : Q) (xs : list Q) : Prop :=
  In m xs /\ forall x, In x xs -> x <= m.

(** The values lines 37-38 compute. *)
Definition lowest (xs : list Q) : Q := fold_left np.qmin (tl xs) (hd 0 xs).
Definition highest (xs : list Q) : Q := fold_left np.qmax (tl xs) (hd 0 xs).

(** The grid lines 40-43 build from the bounds. *)
Definition grid_of (ss : SampleSet) : list (list Q) * list (list Q) :=
  np.meshgrid
    (np.linspace_f64 (lowest (azimuths_of ss)) (highest (azimuths_of ss)) 100)
    (np.linspace_f64 (lowest (elevations_of ss)) (highest (elevations_of ss))
                     100).

(** Node [(i, j)] of a grid: row [i] (elevation index), column [j]
    (azimuth index). *)
Definition node (G : list (list Q) * list (list Q)) (i j : nat)
  : scipy.point :=
  (nth j (nth i (fst G) []) 0, nth j (nth i (snd G) []) 0).

(** The figure a successful pass leaves. *)
Definition heatmap (ss : SampleSet) : list artist :=
  [ art_image (scipy.griddata_f64 (samples_of ss)
                                  (fst (grid_of ss)) (snd (grid_of ss)))
              "lower"%string "auto"%string
              (f64 (lowest (azimuths_of ss)), f64 (highest (azimuths_of ss)),
               f64 (lowest (elevations_of ss)),
               f64 (highest (elevations_of ss)));
    art_colorbar;
    art_colorbar_label "Power"%string;
    art_scatter (azimuths_of ss) (elevations_of ss) "."%string;
    art_xlabel "Azimuth"%string;
    art_ylabel "Elevation"%string;
    art_title "Interpolated Power Heatmap"%string ].

(** The library calls of a pass over [ss], after [read_csv], up to and
    including [griddata]. *)
Definition grid_calls (ss : SampleSet) : list call :=
  [ call_linspace (lowest (azimuths_of ss)) (highest (azimuths_of ss)) 100;
    call_linspace (lowest (elevations_of ss)) (highest (elevations_of ss)) 100;
    call_griddata (points_of ss) (powers_of ss)
                  (fst (grid_of ss)) (snd (grid_of ss)) ].

Definition extend (w : world) (cs : list call) : world :=
  {| figure := figure w; close_clicked := close_clicked w;
     trace := trace w ++ cs |}.

(** The number of refresh passes begun: the calls to [read_csv]. *)
Definition is_read (c : call) : bool :=
  match c with call_read_csv _ => true | _ => false end.
Definition passes (s : plot.state) : nat :=
  List.length (filter is_read (trace (plot.wld (plot.glob s)))).

(** The main thread is inside the [while] loop. *)
Definition in_loop (l : plot.pc) : bool :=
  match l with
  | plot.at_fignum_check | plot.at_flag_test | plot.at_flag_clear
  | plot.at_replot | plot.in_replot _ | plot.at_pause => true
  | _ => false
  end.

(** The main thread has left the loop for good. *)
Definition gone (l : plot.pc) : bool :=
  match l with
  | plot.at_finally _ | plot.exited _ => true
  | _ => false
  end.

(** The observer thread is delivering events to the handler. *)
Definition watching (s : plot.state) : bool :=
  match plot.where_ s, plot.observer s with
  | plot.exited _, _ => false
  | _, plot.started _ _ => true
  | _, _ => false
  end.

(** A modification event whose absolute path is that of the watched file. *)
Definition hits (abspath : path -> path) (csv_file : path)
  (ev : watchdog.FileSystemEvent) : bool :=
  match watchdog.kind ev with
  | watchdog.modified =>
      String.eqb (abspath (watchdog.src_path ev)) (abspath csv_file)
  | _ => false
  end.

(** Statements of the main thread that begin a pass. *)
Definition reads (l : plot.pc) : nat :=
  match l with
  | plot.at_initial_plot | plot.at_replot => 1
  | _ => 0
  end.



Definition is_main (l : plot.label) : bool :=
  match l with plot.main_step => true | _ => false end.
Definition main_count (sched : list plot.label) : nat :=
  List.length (filter is_main sched).
Definition main_steps (n : nat) : list plot.label := repeat plot.main_step n.

(** A change has been announced and no pass has begun since: the flag is
    set, or the main thread has read it set and not yet called
    [read_csv]. *)
Definition pending (s : plot.state) : Prop :=
  plot.file_changed (plot.glob s) = true
  \/ plot.where_ s = plot.at_flag_clear \/ plot.where_ s = plot.at_replot.




(** The handler the observer calls is the one [main] made for [csv_file]. *)
Definition handler_of_main (abspath : path -> path) (csv_file : path)
  (s : plot.state) : Prop :=
  match plot.observer s with
  | plot.started h _ => h = plot.new_handler abspath csv_file
  | _ => True
  end.

(** An action that adds no [read_csv] to the trace. *)
Definition reads_nothing {A} (m : M A) : Prop :=
  forall w, filter is_read (trace (snd (m w))) = filter is_read (trace w).

(** The main thread has not reached the loop yet. *)
Definition before_loop (l : plot.pc) : bool :=
  match l with
  | plot.at_initial_plot | plot.in_initial_plot _ | plot.at_observer_start =>
      true
  | _ => false
  end.

(** A step of the schedule that hands the handler a matching event. *)
Definition is_hit (abspath : path -> path) (csv_file : path)
  (l : plot.label) : bool :=
  match l with
  | plot.fs_event ev => hits abspath csv_file ev
  | _ => false
  end.
Definition announcements (abspath : path -> path) (csv_file : path)
  (sched : list plot.label) : nat :=
  List.length (filter (is_hit abspath csv_file) sched).

(** Passes the main thread is bound to begin: one for a set flag, one when
    it stands right before a [read_csv]. *)
Definition owed (s : plot.state) : nat :=
  ((if plot.file_changed (plot.glob s) then 1 else 0)
   + reads (plot.where_ s))%nat.

(** The main thread reads the flag set before it clears it. *)
Definition clears_a_set_flag (s : plot.state) : Prop :=
  plot.where_ s = plot.at_flag_clear ->
  plot.file_changed (plot.glob s) = true.

(** The window is going: the click waits for [plt.pause], or [plt.pause]
    has handled it and line 112 comes next, or the loop is left already. *)
Definition closing (s : plot.state) : Prop :=
  gone (plot.where_ s) = true \/
  (in_loop (plot.where_ s) = true /\
   (close_clicked (plot.wld (plot.glob s)) = true \/
    (plot.where_ s = plot.at_fignum_check /\
     figure (plot.wld (plot.glob s)) = None))).

(** An upper bound on the statements the main thread still runs once the
    window is going. *)
Definition to_exit (s : plot.state) : nat :=
  match plot.where_ s with
  | plot.exited _ => 0
  | plot.at_finally _ => 1
  | plot.at_pause => 3
  | plot.in_replot _ => 4
  | plot.at_replot => 5
  | plot.at_flag_clear => 6
  | plot.at_flag_test => 7
  | plot.at_fignum_check =>
      match figure (plot.wld (plot.glob s)) with
      | None => 2
      | Some _ => 8
      end
  | _ => 0
  end.

(** An action that leaves the pending click alone. *)
Definition keeps_click {A} (m : M A) : Prop :=
  forall w, close_clicked (snd (m w)) = close_clicked w.

(** Where the observer stands at each point of [main]. *)
Definition observer_in_step (abspath dirname : path -> path)
  (csv_file : path) (s : plot.state) : Prop :=
  match plot.where_ s with
  | plot.at_initial_plot | plot.in_initial_plot _ | plot.at_observer_start =>
      plot.observer s = plot.not_started
  | plot.at_fignum_check | plot.at_flag_test | plot.at_flag_clear
  | plot.at_replot | plot.in_replot _ | plot.at_pause =>
      plot.observer s = plot.started (plot.new_handler abspath csv_file)
                                     (dirname (abspath csv_file))
  | plot.at_finally _ => True
  | plot.exited (plot.exit_code n) =>
      n = 0%nat /\ plot.observer s = plot.stopped
  | plot.exited (plot.traceback KeyboardInterrupt) => True
  | plot.exited (plot.traceback _) =>
      plot.observer s = plot.not_started \/ plot.observer s = plot.stopped
  end.

Definition is_print (c : call) : bool :=
  match c with call_print _ => true | _ => false end.

(* ------------------------------------------------------------------ *)
(** ** Inputs of the worked runs *)

(** The process runs in [/home/op].  [os.path.abspath] and [os.path.dirname]
    of the general development are parameters; these two stand for them in
    the worked runs only, at file names directly in [/home/op] and written
    without [.], [..] or a doubled [/], where they give what the library
    gives (the library also normalises such paths, these do not). *)
Definition unix_abspath (p : path) : path :=
  if String.prefix "/" p then p else String.append "/home/op/" p.
Definition unix_dirname (_ : path) : path := "/home/op"%string.

Definition the_csv : path := "data.csv"%string.
Definition argv : list string := ["plot.py"%string; the_csv].

Definition reading (t p a e : Z) : Sample :=
  mkSample (pd.Num (inject_Z t)) (inject_Z p) (inject_Z a) (inject_Z e).

Definition holding (rows : pd.DataFrame) : pd.filesystem :=
  fun p => if String.eqb p the_csv then pd.Table rows else pd.Missing.

(** Four samples on the corners of a square. *)
Definition square : SampleSet :=
  [reading 0 1 0 0; reading 1 2 10 0; reading 2 3 0 10; reading 3 4 10 10].

(** A single sample. *)
Definition lonely : SampleSet := [reading 0 1 0 0].

(** Three samples at azimuth 5. *)
Definition upright : SampleSet :=
  [reading 0 1 5 0; reading 1 2 5 10; reading 2 3 5 20].

(** Two lines, the azimuth of the first is the text [abc]. *)
Definition text_rows : pd.DataFrame :=
  [pd.mkRow (pd.Num 0) (pd.Num 1) (pd.Str "abc") (pd.Num 0);
   pd.mkRow (pd.Num 1) (pd.Num 2) (pd.Num 10) (pd.Num 10)].

Definition no_files : pd.filesystem := fun _ => pd.Missing.

Definition touched (p : path) : watchdog.FileSystemEvent :=
  watchdog.mkEvent watchdog.modified p false.

(** The main thread about to test line 112, a heat map on screen. *)
Definition ticking (l : plot.pc) (flag : bool) (files : pd.filesystem)
  : plot.state :=
  {| plot.where_ := l;
     plot.observer := plot.started (plot.new_handler unix_abspath the_csv)
                                   (unix_dirname (unix_abspath the_csv));
     plot.fs := files;
     plot.glob := {| plot.file_changed := flag;
                     plot.wld := {| figure := Some (heatmap square);
                                    close_clicked := false;
                                    trace := [] |} |} |}.

(** Three samples on a right triangle. *)
Definition corner : SampleSet :=
  [reading 0 1 0 0; reading 1 2 10 0; reading 2 3 0 10].

(** The rows of [corner] with ISO time stamps in the first column. *)
Definition stamped : pd.DataFrame :=
  [pd.mkRow (pd.Str "2024-05-01T10:00:00") (pd.Num 1) (pd.Num 0) (pd.Num 0);
   pd.mkRow (pd.Str "2024-05-01T10:00:01") (pd.Num 2) (pd.Num 10) (pd.Num 0);
   pd.mkRow (pd.Str "2024-05-01T10:00:02") (pd.Num 3) (pd.Num 0) (pd.Num 10)].

(* ------------------------------------------------------------------ *)
(** ** The refresh pass *)

Lemma numbers_map_Num (f : Sample -> Q) (ss : SampleSet) :
  np.numbers (map (fun s => pd.Num (f s)) ss) = Some (map f ss).
Proof.
  induction ss as [|s ss IH]; simpl; [reflexivity|].
  now rewrite IH.
Qed.

Lemma to_numpy_azimuth ss :
  np.to_numpy (pd.column pd.azimuth (frame_of ss)) = np.float64 (azimuths_of ss).
Proof.
  unfold np.to_numpy, pd.column, frame_of, azimuths_of.
  rewrite map_map; simpl. now rewrite numbers_map_Num.
Qed.

Lemma to_numpy_elevation ss :
  np.to_numpy (pd.column pd.elevation (frame_of ss))
  = np.float64 (elevations_of ss).
Proof.
  unfold np.to_numpy, pd.column, frame_of, elevations_of.
  rewrite map_map; simpl. now rewrite numbers_map_Num.
Qed.

Lemma to_numpy_power ss :
  np.to_numpy (pd.column pd.power (frame_of ss)) = np.float64 (powers_of ss).
Proof.
  unfold np.to_numpy, pd.column, frame_of, powers_of.
  rewrite map_map; simpl. now rewrite numbers_map_Num.
Qed.

Lemma length_frame_of ss : List.length (frame_of ss) = List.length ss.
Proof. apply length_map. Qed.

Lemma min_float64 xs :
  xs <> [] -> np.min (np.float64 xs) = ok (f64 (lowest xs)).
Proof. destruct xs; [congruence | reflexivity]. Qed.

Lemma max_float64 xs :
  xs <> [] -> np.max (np.float64 xs) = ok (f64 (highest xs)).
Proof. destruct xs; [congruence | reflexivity]. Qed.

(** What a pass does with a frame of two or more numeric rows: the bounds,
    the two axes, the grid and the triangulation; then either Qhull's error
    or the new figure. *)
Lemma plot_frame_samples (ss : SampleSet) (w0 : world) :
  (2 <= List.length ss)%nat ->
  plot.plot_frame (frame_of ss) w0 =
  if scipy.degenerate (samples_of ss)
  then (raised QhullError, extend w0 (grid_calls ss))
  else (ok tt, {| figure := Some (heatmap ss);
                  close_clicked := close_clicked w0;
                  trace := trace w0 ++ grid_calls ss ++ [call_draw] |}).
Proof.
  intros Hlen. unfold plot.plot_frame.
  rewrite length_frame_of.
  destruct (Nat.ltb_spec (List.length ss) 2) as [H|_]; [lia|].
  rewrite to_numpy_azimuth, to_numpy_elevation, to_numpy_power.
  assert (Ha : azimuths_of ss <> []) by (destruct ss; simpl in *; [lia|discriminate]).
  assert (He : elevations_of ss <> []) by (destruct ss; simpl in *; [lia|discriminate]).
  unfold bind, lift.
  rewrite (min_float64 Ha), (max_float64 Ha), (min_float64 He), (max_float64 He).
  unfold np.linspace, bind, log, ret, scipy.griddata, bind, log, raise, ret.
  cbn [figure close_clicked trace].
  change (combine (combine (azimuths_of ss) (elevations_of ss)) (powers_of ss))
    with (samples_of ss).
  destruct (scipy.degenerate (samples_of ss)).
  - unfold extend, grid_calls, grid_of, points_of.
    cbn [figure close_clicked trace fst snd np.meshgrid].
    rewrite <- !app_assoc. reflexivity.
  - unfold heatmap, grid_calls, grid_of, points_of.
    unfold plt.clf, plt.imshow, plt.colorbar, plt.set_label, plt.scatter,
      plt.xlabel, plt.ylabel, plt.title, plt.draw, plt.add, plt.set_figure, log.
    cbn [figure close_clicked trace fst snd np.meshgrid app].
    rewrite <- !app_assoc. reflexivity.
Qed.

Lemma interpolate_and_plot_unfold fs csv_file w0 :
  plot.interpolate_and_plot fs csv_file w0 =
  plot.after_load csv_file (pd.read_csv fs csv_file)
                  (extend w0 [call_read_csv csv_file]).
Proof. reflexivity. Qed.

Lemma read_csv_raises_Exception fs p e :
  pd.read_csv fs p = raised e -> derives_from_Exception e = true.
Proof.
  unfold pd.read_csv. destruct (fs p) as [| |[|r rows]]; intros H;
    inversion H; reflexivity.
Qed.

(** A pass whose load failed: one diagnostic, nothing else. *)
Lemma pass_load_failed fs csv_file e w0 :
  pd.read_csv fs csv_file = raised e ->
  plot.interpolate_and_plot fs csv_file w0 =
  (ok tt, extend w0 [call_read_csv csv_file;
                     call_print (msg_failed_to_read csv_file e)]).
Proof.
  intros H. rewrite interpolate_and_plot_unfold, H. unfold plot.after_load.
  rewrite (read_csv_raises_Exception _ _ H).
  unfold print, log, extend; cbn [figure close_clicked trace].
  now rewrite <- app_assoc.
Qed.

(** Lines 28-30 on a frame of fewer than two rows. *)
Lemma plot_frame_short df w0 :
  (List.length df < 2)%nat ->
  plot.plot_frame df w0 = (ok tt, extend w0 [call_print msg_not_enough_data]).
Proof.
  intros H. unfold plot.plot_frame.
  destruct (Nat.ltb_spec (List.length df) 2) as [_|H']; [reflexivity | lia].
Qed.

Lemma pass_not_enough_data fs csv_file df w0 :
  pd.read_csv fs csv_file = ok df -> (List.length df < 2)%nat ->
  plot.interpolate_and_plot fs csv_file w0 =
  (ok tt, extend w0 [call_read_csv csv_file; call_print msg_not_enough_data]).
Proof.
  intros H Hlen. rewrite interpolate_and_plot_unfold, H. unfold plot.after_load.
  rewrite (plot_frame_short _ _ Hlen).
  unfold extend; cbn [figure close_clicked trace]. now rewrite <- app_assoc.
Qed.

Lemma pass_samples fs csv_file ss w0 :
  pd.read_csv fs csv_file = ok (frame_of ss) -> (2 <= List.length ss)%nat ->
  plot.interpolate_and_plot fs csv_file w0 =
  if scipy.degenerate (samples_of ss)
  then (raised QhullError,
        extend w0 (call_read_csv csv_file :: grid_calls ss))
  else (ok tt, {| figure := Some (heatmap ss);
                  close_clicked := close_clicked w0;
                  trace := trace w0 ++ call_read_csv csv_file
                                    :: grid_calls ss ++ [call_draw] |}).
Proof.
  intros H Hlen. rewrite interpolate_and_plot_unfold, H. unfold plot.after_load.
  rewrite (plot_frame_samples _ _ Hlen).
  unfold extend; cbn [figure close_clicked trace].
  rewrite <- !app_assoc. reflexivity.
Qed.

(** *** Minimum and maximum of a column *)

Lemma qmin_cases a b :
  (np.qmin a b = a /\ a <= b) \/ (np.qmin a b = b /\ b <= a).
Proof.
  unfold np.qmin. destruct (Qle_bool a b) eqn:E.
  - left. split; [reflexivity | now apply Qle_bool_iff].
  - right. split; [reflexivity|].
    destruct (Qlt_le_dec b a) as [H|H]; [now apply Qlt_le_weak|].
    apply Qle_bool_iff in H. congruence.
Qed.

Lemma qmax_cases a b :
  (np.qmax a b = b /\ a <= b) \/ (np.qmax a b = a /\ b <= a).
Proof.
  unfold np.qmax. destruct (Qle_bool a b) eqn:E.
  - left. split; [reflexivity | now apply Qle_bool_iff].
  - right. split; [reflexivity|].
    destruct (Qlt_le_dec b a) as [H|H]; [now apply Qlt_le_weak|].
    apply Qle_bool_iff in H. congruence.
Qed.

Lemma fold_qmin_spec xs : forall x,
  In (fold_left np.qmin xs x) (x :: xs) /\
  forall y, In y (x :: xs) -> fold_left np.qmin xs x <= y.
Proof.
  induction xs as [|z xs IH]; intros x; simpl.
  - split; [now left|]. intros y [<-|[]]. apply Qle_refl.
  - destruct (IH (np.qmin x z)) as [Hin Hle]. split.
    + destruct Hin as [Hin|Hin]; [|now right; right].
      rewrite <- Hin.
      destruct (qmin_cases x z) as [[-> _]|[-> _]]; [now left | now right; left].
    + intros y Hy.
      assert (Hm : fold_left np.qmin xs (np.qmin x z) <= np.qmin x z)
        by (apply Hle; now left).
      destruct Hy as [<-|[<-|Hy]].
      * eapply Qle_trans; [exact Hm|].
        destruct (qmin_cases x z) as [[-> _]|[-> H]]; [apply Qle_refl | exact H].
      * eapply Qle_trans; [exact Hm|].
        destruct (qmin_cases x z) as [[-> H]|[-> _]]; [exact H | apply Qle_refl].
      * apply Hle. now right.
Qed.

Lemma fold_qmax_spec xs : forall x,
  In (fold_left np.qmax xs x) (x :: xs) /\
  forall y, In y (x :: xs) -> y <= fold_left np.qmax xs x.
Proof.
  induction xs as [|z xs IH]; intros x; simpl.
  - split; [now left|]. intros y [<-|[]]. apply Qle_refl.
  - destruct (IH (np.qmax x z)) as [Hin Hle]. split.
    + destruct Hin as [Hin|Hin]; [|now right; right].
      rewrite <- Hin.
      destruct (qmax_cases x z) as [[-> _]|[-> _]]; [now right; left | now left].
    + intros y Hy.
      assert (Hm : np.qmax x z <= fold_left np.qmax xs (np.qmax x z))
        by (apply Hle; now left).
      destruct Hy as [<-|[<-|Hy]].
      * eapply Qle_trans; [|exact Hm].
        destruct (qmax_cases x z) as [[-> H]|[-> _]]; [exact H | apply Qle_refl].
      * eapply Qle_trans; [|exact Hm].
        destruct (qmax_cases x z) as [[-> _]|[-> H]]; [apply Qle_refl | exact H].
      * apply Hle. now right.
Qed.

Lemma lowest_is_min xs : xs <> [] -> is_min (lowest xs) xs.
Proof.
  destruct xs as [|x xs]; [congruence|]. intros _.
  exact (fold_qmin_spec xs x).
Qed.

Lemma highest_is_max xs : xs <> [] -> is_max (highest xs) xs.
Proof.
  destruct xs as [|x xs]; [congruence|]. intros _.
  exact (fold_qmax_spec xs x).
Qed.

Lemma columns_nonempty (ss : SampleSet) :
  (2 <= List.length ss)%nat ->
  azimuths_of ss <> [] /\ elevations_of ss <> [].
Proof. destruct ss; simpl; [lia|]. intros _. split; discriminate. Qed.

(** *** The grid *)

Lemma linspace_length a b n : List.length (np.linspace_f64 a b n) = n.
Proof. unfold np.linspace_f64. now rewrite length_map, length_seq. Qed.

Lemma nth_map_in {A B} (f : A -> B) (l : list A) (d : A) (d' : B) :
  forall i, (i < List.length l)%nat -> nth i (map f l) d' = f (nth i l d).
Proof.
  induction l as [|x l IH]; intros [|i] H; simpl in *; try lia; auto.
  apply IH. lia.
Qed.

Lemma linspace_nth a b n i :
  (i < n)%nat ->
  nth i (np.linspace_f64 a b n) 0 =
  a + inject_Z (Z.of_nat i) * ((b - a) / inject_Z (Z.of_nat (n - 1))).
Proof.
  intros H. unfold np.linspace_f64.
  rewrite (nth_map_in _ _ 0%nat) by now rewrite length_seq.
  now rewrite seq_nth.
Qed.

Lemma meshgrid_shape xs ys :
  List.length (fst (np.meshgrid xs ys)) = List.length ys /\
  List.length (snd (np.meshgrid xs ys)) = List.length ys /\
  forall i, (i < List.length ys)%nat ->
    List.length (nth i (fst (np.meshgrid xs ys)) []) = List.length xs /\
    List.length (nth i (snd (np.meshgrid xs ys)) []) = List.length xs.
Proof.
  unfold np.meshgrid; cbn [fst snd]. rewrite !length_map.
  repeat split.
  - now rewrite (nth_map_in _ _ 0).
  - now rewrite (nth_map_in _ _ 0), length_map.
Qed.

Lemma meshgrid_node xs ys i j :
  (i < List.length ys)%nat -> (j < List.length xs)%nat ->
  node (np.meshgrid xs ys) i j = (nth j xs 0, nth i ys 0).
Proof.
  intros Hi Hj. unfold node, np.meshgrid; cbn [fst snd]. f_equal.
  - now rewrite (nth_map_in _ _ 0).
  - rewrite (nth_map_in _ _ 0) by assumption.
    now rewrite (nth_map_in _ _ 0).
Qed.

Lemma grid_node ss i j :
  (i < 100)%nat -> (j < 100)%nat ->
  node (grid_of ss) i j =
  (lowest (azimuths_of ss)
   + inject_Z (Z.of_nat j)
     * ((highest (azimuths_of ss) - lowest (azimuths_of ss)) / 99),
   lowest (elevations_of ss)
   + inject_Z (Z.of_nat i)
     * ((highest (elevations_of ss) - lowest (elevations_of ss)) / 99)).
Proof.
  intros Hi Hj. unfold grid_of.
  rewrite meshgrid_node by now rewrite linspace_length.
  now rewrite !linspace_nth by assumption.
Qed.

(* ------------------------------------------------------------------ *)
(** ** Properties of the refresh pass *)

(** C2.  For a file holding two or more samples, the bounds the pass builds
    its grid from are the least and the greatest azimuth and the least and
    the greatest elevation of the samples: these four numbers are the end
    points of the two [np.linspace] calls (the only ones of the pass), and,
    when the pass gets as far as drawing, the [extent] of the image it hands
    to [plt.imshow]. *)
Theorem C2_grid_bounds_are_column_extrema
  (fs : pd.filesystem) (csv_file : path) (ss : SampleSet) (w0 : world) :
  pd.read_csv fs csv_file = ok (frame_of ss) ->
  (2 <= List.length ss)%nat ->
  exists az_min az_max el_min el_max : Q,
    is_min az_min (azimuths_of ss) /\ is_max az_max (azimuths_of ss) /\
    is_min el_min (elevations_of ss) /\ is_max el_max (elevations_of ss) /\
    (exists AZ EL rest,
        trace (snd (plot.interpolate_and_plot fs csv_file w0)) =
        trace w0 ++ [call_read_csv csv_file;
                     call_linspace az_min az_max 100;
                     call_linspace el_min el_max 100;
                     call_griddata (points_of ss) (powers_of ss) AZ EL] ++ rest
        /\ forall a b n, ~ In (call_linspace a b n) rest) /\
    (fst (plot.interpolate_and_plot fs csv_file w0) = ok tt ->
     exists data rest,
       figure (snd (plot.interpolate_and_plot fs csv_file w0)) =
       Some (art_image data "lower"%string "auto"%string
                       (f64 az_min, f64 az_max, f64 el_min, f64 el_max)
             :: rest)
       /\ forall d o a x, ~ In (art_image d o a x) rest).
Proof.
  intros Hread Hlen.
  destruct (columns_nonempty ss Hlen) as [Ha He].
  exists (lowest (azimuths_of ss)), (highest (azimuths_of ss)),
         (lowest (elevations_of ss)), (highest (elevations_of ss)).
  repeat split;
    try (apply lowest_is_min; assumption);
    try (apply highest_is_max; assumption).
  - rewrite (pass_samples _ _ _ w0 Hread Hlen).
    exists (fst (grid_of ss)), (snd (grid_of ss)).
    destruct (scipy.degenerate (samples_of ss)); cbn [snd extend trace].
    + exists []. split; [reflexivity | intros a b n []].
    + exists [call_draw]. split; [reflexivity|].
      intros a b n [H|[]]; discriminate.
  - rewrite (pass_samples _ _ _ w0 Hread Hlen).
    destruct (scipy.degenerate (samples_of ss)); cbn [fst snd figure];
      [discriminate|]. intros _.
    eexists _, _. split; [reflexivity|].
    intros d o a x H. simpl in H.
    repeat (destruct H as [H|H]; [discriminate|]). exact H.
Qed.

(** C3.  A frame of fewer than two rows (none, or one) makes the pass print
    "Not enough data to plot." and return: the world after it is the world
    before it plus that line, so no grid is built, [griddata] is not called,
    nothing is drawn and the figure is untouched.  The same holds for the
    whole of [interpolate_and_plot] when [read_csv] returns such a frame. *)
Theorem C3_fewer_than_two_samples_skip
  (fs : pd.filesystem) (csv_file : path) (df : pd.DataFrame) (w0 : world) :
  (List.length df < 2)%nat ->
  plot.plot_frame df w0 = (ok tt, extend w0 [call_print msg_not_enough_data])
  /\ (pd.read_csv fs csv_file = ok df ->
      plot.interpolate_and_plot fs csv_file w0 =
      (ok tt, extend w0 [call_read_csv csv_file;
                         call_print msg_not_enough_data])).
Proof.
  intros Hlen. split.
  - now apply plot_frame_short.
  - intros Hread. now apply pass_not_enough_data with df.
Qed.

(** C10.  For a file holding two or more samples, the grid the pass hands to
    [griddata] has 100 rows of 100 nodes; node [(i, j)] has the azimuth
    [az_min + j * (az_max - az_min) / 99] and the elevation
    [el_min + i * (el_max - el_min) / 99], so that the first node on each
    axis lies on the minimum and the last one on the maximum. *)
Theorem C10_grid_is_100_by_100_and_spans_bounds
  (fs : pd.filesystem) (csv_file : path) (ss : SampleSet) (w0 : world) :
  pd.read_csv fs csv_file = ok (frame_of ss) ->
  (2 <= List.length ss)%nat ->
  let G := grid_of ss in
  let az_min := lowest (azimuths_of ss) in
  let az_max := highest (azimuths_of ss) in
  let el_min := lowest (elevations_of ss) in
  let el_max := highest (elevations_of ss) in
  (exists rest,
      trace (snd (plot.interpolate_and_plot fs csv_file w0)) =
      trace w0 ++ [call_read_csv csv_file;
                   call_linspace az_min az_max 100;
                   call_linspace el_min el_max 100;
                   call_griddata (points_of ss) (powers_of ss) (fst G) (snd G)]
              ++ rest) /\
  List.length (fst G) = 100%nat /\ List.length (snd G) = 100%nat /\
  (forall i, (i < 100)%nat ->
     List.length (nth i (fst G) []) = 100%nat /\
     List.length (nth i (snd G) []) = 100%nat) /\
  (forall i j, (i < 100)%nat -> (j < 100)%nat ->
     fst (node G i j)
     == az_min + inject_Z (Z.of_nat j) * ((az_max - az_min) / 99) /\
     snd (node G i j)
     == el_min + inject_Z (Z.of_nat i) * ((el_max - el_min) / 99)) /\
  (forall i, (i < 100)%nat ->
     fst (node G i 0) == az_min /\ fst (node G i 99) == az_max) /\
  (forall j, (j < 100)%nat ->
     snd (node G 0 j) == el_min /\ snd (node G 99 j) == el_max).
Proof.
  intros Hread Hlen G az_min az_max el_min el_max.
  assert (Hshape := meshgrid_shape
                      (np.linspace_f64 az_min az_max 100)
                      (np.linspace_f64 el_min el_max 100)).
  rewrite !linspace_length in Hshape.
  destruct Hshape as (H1 & H2 & H3).
  split; [|split; [exact H1|split; [exact H2|split; [exact H3|]]]].
  - rewrite (pass_samples _ _ _ w0 Hread Hlen).
    destruct (scipy.degenerate (samples_of ss)); cbn [snd extend trace].
    + exists []. reflexivity.
    + exists [call_draw]. reflexivity.
  - split; [|split].
    + intros i j Hi Hj. subst G. rewrite grid_node by assumption.
      split; reflexivity.
    + intros i Hi. subst G. rewrite !grid_node by (assumption || lia).
      cbn [fst Z.of_nat]. change (inject_Z 0) with 0.
      change (inject_Z (Z.pos (Pos.of_succ_nat 98))) with 99.
      subst az_min az_max el_min el_max. split; [ring | field].
    + intros j Hj. subst G. rewrite !grid_node by (assumption || lia).
      cbn [snd Z.of_nat]. change (inject_Z 0) with 0.
      change (inject_Z (Z.pos (Pos.of_succ_nat 98))) with 99.
      subst az_min az_max el_min el_max. split; [ring | field].
Qed.

(* ------------------------------------------------------------------ *)
(** ** Triples of samples *)

Lemma In_pairs {A} (l : list A) a b :
  In (a, b) (scipy.pairs l) -> In a l /\ In b l.
Proof.
  induction l as [|x l IH]; simpl; [tauto|].
  rewrite in_app_iff, in_map_iff.
  intros [(y & E & Hy)|H].
  - inversion E; subst. auto.
  - destruct (IH H). auto.
Qed.

Lemma In_triples {A} (l : list A) a b c :
  In (a, b, c) (scipy.triples l) -> In a l /\ In b l /\ In c l.
Proof.
  induction l as [|x l IH]; simpl; [tauto|].
  rewrite in_app_iff, in_map_iff.
  intros [([y z] & E & Hyz)|H].
  - inversion E; subst. destruct (In_pairs _ _ _ Hyz). auto.
  - destruct (IH H) as (? & ? & ?). auto.
Qed.

(* ------------------------------------------------------------------ *)
(** ** The trace of a pass holds one [read_csv] *)

Lemma reads_nothing_ret {A} (a : A) : reads_nothing (ret a).
Proof. intros w. reflexivity. Qed.

Lemma reads_nothing_raise {A} e : reads_nothing (@raise A e).
Proof. intros w. reflexivity. Qed.

Lemma reads_nothing_lift {A} (r : result A) : reads_nothing (lift r).
Proof. intros w. reflexivity. Qed.

Lemma reads_nothing_log c : is_read c = false -> reads_nothing (log c).
Proof.
  intros H w. unfold log; cbn [snd trace].
  rewrite filter_app; simpl. rewrite H. apply app_nil_r.
Qed.

Lemma reads_nothing_bind {A B} (m : M A) (k : A -> M B) :
  reads_nothing m -> (forall a, reads_nothing (k a)) -> reads_nothing (bind m k).
Proof.
  intros Hm Hk w. unfold bind. specialize (Hm w).
  destruct (m w) as [[a|e] w']; cbn [snd] in *.
  - now rewrite Hk.
  - exact Hm.
Qed.

Lemma reads_nothing_add a : reads_nothing (plt.add a).
Proof. intros w. reflexivity. Qed.

Lemma reads_nothing_linspace a b n : reads_nothing (np.linspace a b n).
Proof.
  destruct a, b; simpl; try apply reads_nothing_raise.
  apply reads_nothing_bind; [now apply reads_nothing_log|].
  intros _. apply reads_nothing_ret.
Qed.

Lemma reads_nothing_griddata xs ys vs AZ EL :
  reads_nothing (scipy.griddata xs ys vs AZ EL).
Proof.
  destruct xs, ys, vs; simpl; try apply reads_nothing_raise.
  apply reads_nothing_bind; [now apply reads_nothing_log|].
  intros _. destruct (scipy.degenerate _);
    [apply reads_nothing_raise | apply reads_nothing_ret].
Qed.

Lemma reads_nothing_scatter xs ys m : reads_nothing (plt.scatter xs ys m).
Proof.
  destruct xs, ys; simpl;
    (apply reads_nothing_raise || apply reads_nothing_add).
Qed.

Lemma reads_nothing_plot_frame df : reads_nothing (plot.plot_frame df).
Proof.
  unfold plot.plot_frame.
  destruct (List.length df <? 2)%nat; [now apply reads_nothing_log|].
  repeat (apply reads_nothing_bind;
          [ first [ apply reads_nothing_lift
                  | apply reads_nothing_linspace
                  | apply reads_nothing_griddata
                  | apply reads_nothing_scatter
                  | apply reads_nothing_add
                  | intros w; reflexivity ]
          | intros ? ]).
  - now apply reads_nothing_log.
Qed.

Lemma reads_nothing_after_load csv_file r :
  reads_nothing (plot.after_load csv_file r).
Proof.
  destruct r as [df|e]; simpl.
  - apply reads_nothing_plot_frame.
  - destruct (derives_from_Exception e);
      [now apply reads_nothing_log | apply reads_nothing_raise].
Qed.

(* ------------------------------------------------------------------ *)
(** ** A pass leaves the pending click alone *)

Lemma keeps_click_ret {A} (a : A) : keeps_click (ret a).
Proof. intros w. reflexivity. Qed.

Lemma keeps_click_raise {A} e : keeps_click (@raise A e).
Proof. intros w. reflexivity. Qed.

Lemma keeps_click_lift {A} (r : result A) : keeps_click (lift r).
Proof. intros w. reflexivity. Qed.

Lemma keeps_click_log c : keeps_click (log c).
Proof. intros w. reflexivity. Qed.

Lemma keeps_click_add a : keeps_click (plt.add a).
Proof. intros w. reflexivity. Qed.

Lemma keeps_click_bind {A B} (m : M A) (k : A -> M B) :
  keeps_click m -> (forall a, keeps_click (k a)) -> keeps_click (bind m k).
Proof.
  intros Hm Hk w. unfold bind. specialize (Hm w).
  destruct (m w) as [[a|e] w']; cbn [snd] in *.
  - now rewrite Hk.
  - exact Hm.
Qed.

Lemma keeps_click_linspace a b n : keeps_click (np.linspace a b n).
Proof.
  destruct a, b; simpl; try apply keeps_click_raise.
  apply keeps_click_bind; [apply keeps_click_log|].
  intros _. apply keeps_click_ret.
Qed.

Lemma keeps_click_griddata xs ys vs AZ EL :
  keeps_click (scipy.griddata xs ys vs AZ EL).
Proof.
  destruct xs, ys, vs; simpl; try apply keeps_click_raise.
  apply keeps_click_bind; [apply keeps_click_log|].
  intros _. destruct (scipy.degenerate _);
    [apply keeps_click_raise | apply keeps_click_ret].
Qed.

Lemma keeps_click_scatter xs ys m : keeps_click (plt.scatter xs ys m).
Proof.
  destruct xs, ys; simpl;
    (apply keeps_click_raise || apply keeps_click_add).
Qed.

Lemma keeps_click_plot_frame df : keeps_click (plot.plot_frame df).
Proof.
  unfold plot.plot_frame.
  destruct (List.length df <? 2)%nat; [apply keeps_click_log|].
  repeat (apply keeps_click_bind;
          [ first [ apply keeps_click_lift
                  | apply keeps_click_linspace
                  | apply keeps_click_griddata
                  | apply keeps_click_scatter
                  | apply keeps_click_add
                  | intros w; reflexivity ]
          | intros ? ]).
  - apply keeps_click_log.
Qed.

Lemma keeps_click_after_load csv_file r :
  keeps_click (plot.after_load csv_file r).
Proof.
  destruct r as [df|e]; simpl.
  - apply keeps_click_plot_frame.
  - destruct (derives_from_Exception e);
      [apply keeps_click_log | apply keeps_click_raise].
Qed.


(* ------------------------------------------------------------------ *)
(** ** The two threads *)

Section Loop.

Variable abspath : path -> path.
Variable dirname : path -> path.
Variable csv_file : path.

Local Abbreviation step := (plot.step abspath dirname csv_file).
Local Abbreviation run := (plot.run abspath dirname csv_file).
Local Abbreviation main_thread := (plot.main_thread abspath dirname csv_file).
Local Abbreviation deliver := (plot.deliver abspath).
Local Abbreviation handler := (plot.new_handler abspath csv_file).

Lemma run_cons l sched s : run (l :: sched) s = run sched (step l s).
Proof. reflexivity. Qed.

Lemma run_app a b s : run (a ++ b) s = run b (run a s).
Proof. unfold plot.run. apply fold_left_app. Qed.


(** *** What each kind of step leaves alone *)

Lemma deliver_frame ev s :
  plot.where_ (deliver ev s) = plot.where_ s /\
  plot.observer (deliver ev s) = plot.observer s /\
  plot.fs (deliver ev s) = plot.fs s /\
  figure (plot.wld (plot.glob (deliver ev s))) = figure (plot.wld (plot.glob s)) /\
  close_clicked (plot.wld (plot.glob (deliver ev s)))
  = close_clicked (plot.wld (plot.glob s)) /\
  passes (deliver ev s) = passes s /\
  (plot.file_changed (plot.glob s) = true ->
   plot.file_changed (plot.glob (deliver ev s)) = true).
Proof.
  destruct s as [l o f [b w]]. unfold passes, plot.deliver.
  destruct l, o; cbn [plot.where_ plot.observer plot.fs plot.glob];
    try (repeat split; auto; fail);
    unfold plot.dispatch, plot.on_modified;
    destruct (watchdog.kind ev);
    try (repeat split; auto; fail);
    destruct (String.eqb _ _);
    cbn [plot.where_ plot.observer plot.fs plot.glob plot.wld
         plot.file_changed print log snd figure close_clicked trace];
    repeat split; auto;
    rewrite filter_app; simpl; now rewrite app_nil_r.
Qed.

Lemma on_modified_flag (self : plot.CSVFileChangeHandler) ev g :
  plot.file_changed (plot.on_modified abspath self ev g) = true <->
  plot.file_changed g = true
  \/ abspath (watchdog.src_path ev) = plot.target_path self.
Proof.
  unfold plot.on_modified.
  destruct (String.eqb_spec (abspath (watchdog.src_path ev))
                            (plot.target_path self)) as [E|N];
    cbn [plot.file_changed]; tauto.
Qed.

Lemma after_load_passes r w :
  List.length (filter is_read (trace (snd (plot.after_load csv_file r w))))
  = List.length (filter is_read (trace w)).
Proof. now rewrite reads_nothing_after_load. Qed.

Lemma passes_main s : passes (main_thread s) = (passes s + reads (plot.where_ s))%nat.
Proof.
  destruct s as [l o f [b w]]. unfold passes, plot.main_thread.
  destruct l; cbn [plot.where_ plot.glob plot.wld plot.fs reads].
  - unfold plt.ion, ret, plot.load, bind, log, lift.
    cbn [plot.goto plot.with_world plot.glob plot.wld trace].
    rewrite filter_app, length_app. reflexivity.
  - pose proof (after_load_passes r w) as H.
    destruct (plot.after_load csv_file r w) as [[[]|e] w'];
      cbn [snd plot.goto plot.with_world plot.glob plot.wld] in *; lia.
  - unfold print, log.
    cbn [plot.goto plot.with_world plot.with_observer plot.glob plot.wld trace].
    rewrite filter_app, length_app. simpl. lia.
  - unfold plt.fignum_exists_1. destruct (figure w); simpl; lia.
  - destruct b; simpl; lia.
  - simpl; lia.
  - unfold plot.load, bind, log, lift.
    cbn [plot.goto plot.with_world plot.glob plot.wld trace].
    rewrite filter_app, length_app. reflexivity.
  - pose proof (after_load_passes r w) as H.
    destruct (plot.after_load csv_file r w) as [[[]|e] w'];
      [|destruct e];
      cbn [snd plot.goto plot.with_world plot.glob plot.wld] in *; lia.
  - unfold plt.pause. destruct (close_clicked w); simpl; lia.
  - simpl; lia.
  - simpl; lia.
Qed.






(** *** The handler of a running process watches [csv_file] *)

Lemma handler_step l s :
  handler_of_main abspath csv_file s ->
  handler_of_main abspath csv_file (step l s).
Proof.
  unfold handler_of_main. destruct s as [p o f [b w]].
  destruct l; cbn [plot.step].
  - unfold plot.main_thread; cbn [plot.where_ plot.glob plot.wld plot.fs].
    destruct p; cbn; auto.
    + destruct (plot.after_load csv_file r w) as [[[]|e] w']; cbn; auto.
    + destruct (figure w); cbn; auto.
    + destruct b; cbn; auto.
    + destruct (plot.after_load csv_file r w) as [[[]|[]] w']; cbn; auto.
    + destruct (plt.pause w); cbn; auto.
  - now rewrite (proj1 (proj2 (deliver_frame ev _))).
  - auto.
  - unfold plot.click; cbn. destruct (figure w); auto.
  - unfold plot.interrupt; cbn. destruct p; auto.
Qed.

Lemma handler_run sched : forall s,
  handler_of_main abspath csv_file s ->
  handler_of_main abspath csv_file (run sched s).
Proof.
  induction sched as [|l sched IH]; intros s H; [exact H|].
  rewrite run_cons. apply IH. now apply handler_step.
Qed.

Lemma handler_start argv files :
  handler_of_main abspath csv_file (plot.start argv files).
Proof. exact I. Qed.

(** *** Two statements of the main thread make one pass *)

Lemma replot_is_a_pass s :
  plot.where_ s = plot.at_replot ->
  main_thread (main_thread s) =
  match plot.interpolate_and_plot (plot.fs s) csv_file (plot.wld (plot.glob s)) with
  | (ok _, w') => plot.goto plot.at_pause (plot.with_world w' s)
  | (raised KeyboardInterrupt, w') =>
      plot.goto (plot.at_finally None) (plot.with_world w' s)
  | (raised e, w') => plot.goto (plot.at_finally (Some e)) (plot.with_world w' s)
  end.
Proof.
  destruct s as [p o f [b w]]; cbn [plot.where_ plot.fs plot.glob plot.wld].
  intros ->. rewrite interpolate_and_plot_unfold.
  unfold plot.main_thread, plt.ion, ret, plot.load, bind, log, lift, extend,
    plot.goto, plot.with_world.
  cbn [plot.where_ plot.observer plot.fs plot.glob plot.wld plot.file_changed].
  destruct (plot.after_load csv_file (pd.read_csv f csv_file) _)
    as [[[]|[]] w']; reflexivity.
Qed.

Lemma initial_plot_is_a_pass s :
  plot.where_ s = plot.at_initial_plot ->
  main_thread (main_thread s) =
  match plot.interpolate_and_plot (plot.fs s) csv_file (plot.wld (plot.glob s)) with
  | (ok _, w') => plot.goto plot.at_observer_start (plot.with_world w' s)
  | (raised e, w') =>
      plot.goto (plot.exited (plot.traceback e)) (plot.with_world w' s)
  end.
Proof.
  destruct s as [p o f [b w]]; cbn [plot.where_ plot.fs plot.glob plot.wld].
  intros ->. rewrite interpolate_and_plot_unfold.
  unfold plot.main_thread, plt.ion, ret, plot.load, bind, log, lift, extend,
    plot.goto, plot.with_world.
  cbn [plot.where_ plot.observer plot.fs plot.glob plot.wld plot.file_changed].
  destruct (plot.after_load csv_file (pd.read_csv f csv_file) _)
    as [[[]|e] w']; reflexivity.
Qed.

(** A pass that fails in one of the two ways the program reports. *)
Lemma reported_failure fs0 w0 :
  (exists e, pd.read_csv fs0 csv_file = raised e) \/
  (exists df, pd.read_csv fs0 csv_file = ok df /\ (List.length df < 2)%nat) ->
  exists m,
    plot.interpolate_and_plot fs0 csv_file w0 =
    (ok tt, extend w0 [call_read_csv csv_file; call_print m]).
Proof.
  intros [[e H]|[df [H Hlen]]].
  - exists (msg_failed_to_read csv_file e). now apply pass_load_failed.
  - exists msg_not_enough_data. now apply pass_not_enough_data with df.
Qed.

(** *** Who sets the flag *)

Lemma main_thread_never_sets s :
  plot.file_changed (plot.glob s) = false ->
  plot.file_changed (plot.glob (main_thread s)) = false.
Proof.
  destruct s as [p o f [b w]]; cbn [plot.glob plot.file_changed]. intros ->.
  unfold plot.main_thread; cbn [plot.where_ plot.fs plot.glob plot.wld].
  destruct p; cbn; auto.
  - destruct (plot.after_load csv_file r w) as [[[]|e] w']; cbn; auto.
  - destruct (figure w); cbn; auto.
  - destruct (plot.after_load csv_file r w) as [[[]|[]] w']; cbn; auto.
  - destruct (plt.pause w); cbn; auto.
Qed.

Lemma flag_rises s l :
  handler_of_main abspath csv_file s ->
  plot.file_changed (plot.glob s) = false ->
  (plot.file_changed (plot.glob (step l s)) = true <->
   exists ev, l = plot.fs_event ev /\ watching s = true /\
              watchdog.kind ev = watchdog.modified /\
              abspath (watchdog.src_path ev) = abspath csv_file).
Proof.
  intros Hh Hf. destruct l; cbn [plot.step].
  - rewrite (main_thread_never_sets _ Hf). split; [discriminate|].
    intros (ev & E & _); discriminate.
  - unfold handler_of_main in Hh. unfold plot.deliver, watching.
    split.
    + intros H. exists ev. split; [reflexivity|].
      destruct (plot.where_ s), (plot.observer s) as [|h d|];
        try congruence; subst h;
        cbn [plot.glob] in H; unfold plot.dispatch in H;
        (destruct (watchdog.kind ev); try congruence);
        apply on_modified_flag in H; destruct H as [H|H]; try congruence;
        auto.
    + intros (ev' & E & Hw & Hk & Hp). inversion E; subst ev'.
      destruct (plot.where_ s), (plot.observer s) as [|h d|];
        try discriminate; subst h;
        cbn [plot.glob]; unfold plot.dispatch; rewrite Hk;
        apply on_modified_flag; right; exact Hp.
  - cbn. rewrite Hf. split; [discriminate|].
    intros (ev & E & _); discriminate.
  - unfold plot.click. destruct (figure _); cbn; rewrite Hf;
      (split; [discriminate|]); intros (ev & E & _); discriminate.
  - unfold plot.interrupt. destruct (plot.where_ s); cbn; rewrite Hf;
      (split; [discriminate|]); intros (ev & E & _); discriminate.
Qed.

(** C4.  In every state the process reaches, a step raises [file_changed]
    from [False] to [True] exactly when it is the observer thread handing the
    handler a modification event whose [abspath] equals the [abspath] of the
    watched file.  Events of other kinds, modification events for other
    paths and every statement of the main thread leave it [False]. *)
Theorem C4_flag_set_only_by_matching_modification
  (argv0 : string) (files : pd.filesystem)
  (sched : list plot.label) (l : plot.label) :
  plot.file_changed
    (plot.glob (run sched (plot.start [argv0; csv_file] files))) = false ->
  (plot.file_changed
     (plot.glob (step l (run sched (plot.start [argv0; csv_file] files))))
   = true
   <->
   exists ev, l = plot.fs_event ev /\
              watching (run sched (plot.start [argv0; csv_file] files)) = true /\
              watchdog.kind ev = watchdog.modified /\
              abspath (watchdog.src_path ev) = abspath csv_file).
Proof.
  intros Hf. apply flag_rises; [|exact Hf].
  apply handler_run, handler_start.
Qed.

(** A pass that fails because [read_csv] raised, or because the frame has
    fewer than two rows, returns normally having printed one line: the
    figure (or the absence of one) is exactly what it was.  Inside the loop
    the main thread goes on to [plt.pause] with flag and observer as they
    were. *)
Lemma reported_failure_leaves_the_figure (s : plot.state) :
  (exists e, pd.read_csv (plot.fs s) csv_file = raised e) \/
  (exists df, pd.read_csv (plot.fs s) csv_file = ok df
              /\ (List.length df < 2)%nat) ->
  let w0 := plot.wld (plot.glob s) in
  let out := plot.interpolate_and_plot (plot.fs s) csv_file w0 in
  fst out = ok tt /\
  figure (snd out) = figure w0 /\
  close_clicked (snd out) = close_clicked w0 /\
  (exists m, trace (snd out)
             = trace w0 ++ [call_read_csv csv_file; call_print m]) /\
  (plot.where_ s = plot.at_replot ->
   plot.where_ (run [plot.main_step; plot.main_step] s) = plot.at_pause /\
   plot.wld (plot.glob (run [plot.main_step; plot.main_step] s)) = snd out /\
   plot.file_changed (plot.glob (run [plot.main_step; plot.main_step] s))
   = plot.file_changed (plot.glob s) /\
   plot.observer (run [plot.main_step; plot.main_step] s) = plot.observer s).
Proof.
  intros Hfail w0 out.
  destruct (reported_failure (plot.fs s) w0 Hfail) as [m Hm].
  subst out. split; [now rewrite Hm|]. split; [now rewrite Hm|].
  split; [now rewrite Hm|]. split; [exists m; now rewrite Hm|].
  intros Hat. cbn [plot.run fold_left plot.step].
  rewrite (replot_is_a_pass _ Hat). fold w0. rewrite Hm.
  destruct s as [p o f [b w]]. repeat split.
Qed.

(** *** Bursts of events *)




(** *** From a set flag to the next pass *)








(** *** A change announced while a pass is in progress *)


(** *** The pass a tick runs *)












(** *** From an announcement to the end of the next pass *)






(** *** Passes that end the process *)

(** At start-up a pass that fails in a reported way opens no figure, so the
    first test of line 112 leaves the loop. *)
Lemma initial_failure_ends_the_process (argv0 : string) (files : pd.filesystem) :
  (exists e, pd.read_csv files csv_file = raised e) \/
  (exists df, pd.read_csv files csv_file = ok df /\ (List.length df < 2)%nat) ->
  let s := run (main_steps 5) (plot.start [argv0; csv_file] files) in
  plot.where_ s = plot.exited (plot.exit_code 0) /\
  plot.observer s = plot.stopped /\
  figure (plot.wld (plot.glob s)) = None /\
  exists m, trace (plot.wld (plot.glob s)) =
            [call_read_csv csv_file; call_print m;
             call_print (msg_watching csv_file)].
Proof.
  intros Hfail.
  destruct (reported_failure files plot.blank Hfail) as [m Hm].
  change (main_steps 5) with (main_steps 2 ++ main_steps 3).
  rewrite run_app. cbn [main_steps repeat plot.run fold_left plot.step].
  rewrite (initial_plot_is_a_pass (plot.start [argv0; csv_file] files))
    by reflexivity.
  cbn [plot.start plot.fs plot.glob plot.wld]. rewrite Hm.
  cbn. repeat split. now exists m.
Qed.

(** An exception other than [KeyboardInterrupt] that leaves a pass leaves
    the loop and the process with it. *)
Lemma exception_in_loop_ends_the_process (s : plot.state) (e : exn) :
  plot.where_ s = plot.at_replot ->
  fst (plot.interpolate_and_plot (plot.fs s) csv_file (plot.wld (plot.glob s)))
  = raised e ->
  derives_from_Exception e = true ->
  plot.where_ (run (main_steps 3) s) = plot.exited (plot.traceback e) /\
  figure (plot.wld (plot.glob (run (main_steps 3) s)))
  = figure (snd (plot.interpolate_and_plot (plot.fs s) csv_file
                                           (plot.wld (plot.glob s)))).
Proof.
  intros Hat Hr He.
  change (main_steps 3) with (main_steps 2 ++ main_steps 1).
  rewrite run_app. cbn [main_steps repeat plot.run fold_left plot.step].
  rewrite (replot_is_a_pass _ Hat).
  destruct (plot.interpolate_and_plot _ _ _) as [r w']. cbn [fst snd] in *.
  subst r. destruct e; try discriminate; split; reflexivity.
Qed.

Lemma exception_at_start_ends_the_process
  (argv0 : string) (files : pd.filesystem) (e : exn) :
  fst (plot.interpolate_and_plot files csv_file plot.blank) = raised e ->
  plot.where_ (run (main_steps 2) (plot.start [argv0; csv_file] files))
  = plot.exited (plot.traceback e).
Proof.
  intros Hr. cbn [main_steps repeat plot.run fold_left plot.step].
  rewrite (initial_plot_is_a_pass (plot.start [argv0; csv_file] files))
    by reflexivity.
  cbn [plot.start plot.fs plot.glob plot.wld].
  destruct (plot.interpolate_and_plot _ _ _) as [r w']. cbn [fst] in Hr.
  now subst r.
Qed.

End Loop.

(* ------------------------------------------------------------------ *)
(** ** Samples on one line *)

Lemma sample_coordinates ss (a : scipy.sample) :
  In a (samples_of ss) ->
  exists s, In s ss /\ fst (fst a) = s_azimuth s.
Proof.
  destruct a as [[x y] v]. unfold samples_of, points_of. intros H.
  apply in_combine_l in H. apply in_combine_l in H.
  unfold azimuths_of in H. apply in_map_iff in H.
  destruct H as (s & E & Hs). exists s. auto.
Qed.

Lemma sample_elevation ss (a : scipy.sample) :
  In a (samples_of ss) ->
  exists s, In s ss /\ snd (fst a) = s_elevation s.
Proof.
  destruct a as [[x y] v]. unfold samples_of, points_of. intros H.
  apply in_combine_l in H. apply in_combine_r in H.
  unfold elevations_of in H. apply in_map_iff in H.
  destruct H as (s & E & Hs). exists s. auto.
Qed.

(** Samples that share one azimuth, or one elevation, do not span the
    plane. *)
Lemma constant_axis_is_degenerate (ss : SampleSet) :
  (forall s s', In s ss -> In s' ss -> s_azimuth s == s_azimuth s') \/
  (forall s s', In s ss -> In s' ss -> s_elevation s == s_elevation s') ->
  scipy.degenerate (samples_of ss) = true.
Proof.
  intros H. unfold scipy.degenerate. apply forallb_forall.
  intros [[a b] c] Hin. apply In_triples in Hin. destruct Hin as (Ha & Hb & Hc).
  unfold scipy.flat. apply Qeq_bool_iff. unfold scipy.orient.
  destruct H as [H|H].
  - destruct (sample_coordinates _ _ Ha) as (sa & Isa & Ea).
    destruct (sample_coordinates _ _ Hb) as (sb & Isb & Eb).
    destruct (sample_coordinates _ _ Hc) as (sc & Isc & Ec).
    rewrite Ea, Eb, Ec. rewrite (H sb sa Isb Isa), (H sc sa Isc Isa). ring.
  - destruct (sample_elevation _ _ Ha) as (sa & Isa & Ea).
    destruct (sample_elevation _ _ Hb) as (sb & Isb & Eb).
    destruct (sample_elevation _ _ Hc) as (sc & Isc & Ec).
    rewrite Ea, Eb, Ec. rewrite (H sb sa Isb Isa), (H sc sa Isc Isa). ring.
Qed.

(** Two samples never span the plane. *)
Lemma two_samples_are_degenerate (a b : Sample) :
  scipy.degenerate (samples_of [a; b]) = true.
Proof. reflexivity. Qed.

(** Every pass over samples with a constant axis ends in Qhull's error,
    before the figure is touched. *)
Lemma constant_axis_raises fs csv_file (ss : SampleSet) (w0 : world) :
  pd.read_csv fs csv_file = ok (frame_of ss) ->
  (2 <= List.length ss)%nat ->
  (forall s s', In s ss -> In s' ss -> s_azimuth s == s_azimuth s') \/
  (forall s s', In s ss -> In s' ss -> s_elevation s == s_elevation s') ->
  plot.interpolate_and_plot fs csv_file w0 =
  (raised QhullError, extend w0 (call_read_csv csv_file :: grid_calls ss)).
Proof.
  intros Hread Hlen Hconst. rewrite (pass_samples _ _ _ w0 Hread Hlen).
  now rewrite (constant_axis_is_degenerate _ Hconst).
Qed.

(* ------------------------------------------------------------------ *)
(** ** Worked runs *)

Lemma square_spans_the_plane : scipy.degenerate (samples_of square) = false.
Proof. vm_compute. reflexivity. Qed.

Lemma square_pass_draws :
  fst (plot.interpolate_and_plot (holding (frame_of square)) the_csv plot.blank)
  = ok tt.
Proof.
  rewrite (pass_samples (holding (frame_of square)) the_csv square plot.blank)
    by (reflexivity || (simpl; lia)).
  now rewrite square_spans_the_plane.
Qed.


Lemma C2_witness :
  exists az_min az_max el_min el_max : Q,
    is_min az_min (azimuths_of square) /\ is_max az_max (azimuths_of square) /\
    is_min el_min (elevations_of square) /\
    is_max el_max (elevations_of square) /\
    exists data rest,
      figure (snd (plot.interpolate_and_plot (holding (frame_of square))
                                             the_csv plot.blank)) =
      Some (art_image data "lower"%string "auto"%string
                      (f64 az_min, f64 az_max, f64 el_min, f64 el_max)
            :: rest).
Proof.
  assert (Hlen : (2 <= List.length square)%nat) by (simpl; lia).
  destruct (C2_grid_bounds_are_column_extrema
              (holding (frame_of square)) the_csv square plot.blank
              eq_refl Hlen)
    as (a & b & c & d & H1 & H2 & H3 & H4 & _ & H6).
  destruct (H6 square_pass_draws) as (data & rest & Hfig & _).
  exists a, b, c, d. repeat (split; [assumption|]).
  now exists data, rest.
Defined.

Lemma C3_witness :
  plot.plot_frame (frame_of lonely) plot.blank
  = (ok tt, extend plot.blank [call_print msg_not_enough_data])
  /\ plot.interpolate_and_plot (holding (frame_of lonely)) the_csv plot.blank
     = (ok tt, extend plot.blank [call_read_csv the_csv;
                                  call_print msg_not_enough_data]).
Proof.
  assert (Hlen : (List.length (frame_of lonely) < 2)%nat) by (simpl; lia).
  destruct (C3_fewer_than_two_samples_skip
              (holding (frame_of lonely)) the_csv (frame_of lonely) plot.blank
              Hlen) as [H1 H2].
  split; [exact H1 | exact (H2 eq_refl)].
Defined.

Lemma C4_witness :
  plot.file_changed
    (plot.glob
       (plot.step unix_abspath unix_dirname the_csv
          (plot.fs_event (touched "/home/op/data.csv"%string))
          (plot.run unix_abspath unix_dirname the_csv (main_steps 3)
             (plot.start argv (holding (frame_of lonely))))))
  = true
  /\
  plot.file_changed
    (plot.glob
       (plot.step unix_abspath unix_dirname the_csv
          (plot.fs_event (touched "/home/op/other.csv"%string))
          (plot.run unix_abspath unix_dirname the_csv (main_steps 3)
             (plot.start argv (holding (frame_of lonely))))))
  <> true.
Proof.
  split.
  - apply (C4_flag_set_only_by_matching_modification
             unix_abspath unix_dirname the_csv "plot.py"%string
             (holding (frame_of lonely)) (main_steps 3)
             (plot.fs_event (touched "/home/op/data.csv"%string)) eq_refl).
    exists (touched "/home/op/data.csv"%string). repeat split.
  - intros H.
    apply (C4_flag_set_only_by_matching_modification
             unix_abspath unix_dirname the_csv "plot.py"%string
             (holding (frame_of lonely)) (main_steps 3)
             (plot.fs_event (touched "/home/op/other.csv"%string)) eq_refl)
      in H.
    destruct H as (ev & E & _ & _ & Hp). inversion E; subst ev.
    discriminate Hp.
Defined.

Lemma C10_witness :
  List.length (fst (grid_of square)) = 100%nat /\
  List.length (nth 0 (fst (grid_of square)) []) = 100%nat /\
  fst (node (grid_of square) 0 0) == lowest (azimuths_of square) /\
  fst (node (grid_of square) 0 99) == highest (azimuths_of square) /\
  snd (node (grid_of square) 0 0) == lowest (elevations_of square) /\
  snd (node (grid_of square) 99 0) == highest (elevations_of square).
Proof.
  assert (Hlen : (2 <= List.length square)%nat) by (simpl; lia).
  assert (H0 : (0 < 100)%nat) by lia.
  destruct (C10_grid_is_100_by_100_and_spans_bounds
              (holding (frame_of square)) the_csv square plot.blank
              eq_refl Hlen)
    as (_ & L1 & _ & L3 & _ & Haz & Hel).
  split; [exact L1|]. split; [exact (proj1 (L3 0%nat H0))|].
  split; [exact (proj1 (Haz 0%nat H0))|].
  split; [exact (proj2 (Haz 0%nat H0))|].
  split; [exact (proj1 (Hel 0%nat H0)) | exact (proj2 (Hel 0%nat H0))].
Defined.

(* ------------------------------------------------------------------ *)
(** ** Runs that end the process *)

(** C5.  A file whose first azimuth is the text [abc]: [read_csv] returns a
    frame (the column has dtype object), the frame has two rows, and
    [np.linspace] raises [TypeError] at line 41, after the [try] of lines
    21-25.  Nothing is printed; the exception leaves
    [interpolate_and_plot] and ends the process, at start-up and inside the
    loop alike. *)
Theorem C5_text_in_a_numeric_column_is_not_caught :
  pd.read_csv (holding text_rows) the_csv = ok text_rows
  /\
  plot.interpolate_and_plot (holding text_rows) the_csv plot.blank
  = (raised TypeError, extend plot.blank [call_read_csv the_csv])
  /\
  plot.where_ (plot.run unix_abspath unix_dirname the_csv (main_steps 2)
                 (plot.start argv (holding text_rows)))
  = plot.exited (plot.traceback TypeError)
  /\
  plot.where_ (plot.run unix_abspath unix_dirname the_csv (main_steps 3)
                 (ticking plot.at_replot false (holding text_rows)))
  = plot.exited (plot.traceback TypeError).
Proof.
  split; [reflexivity|]. split; [reflexivity|]. split.
  - now apply exception_at_start_ends_the_process.
  - now apply exception_in_loop_ends_the_process.
Qed.

(** C8.  The same file arriving while the loop runs with a heat map on
    screen.  The pass fails: [np.linspace] raises [TypeError] after
    [read_csv] has returned, whatever the window shows.  The figure is not
    touched, but nothing is printed and the main thread does not come back
    to [plt.pause]: the exception leaves the loop through the [finally]
    clause and the process ends with a traceback. *)
Theorem C8_failed_pass_on_text_leaves_the_loop :
  let s := ticking plot.at_replot false (holding text_rows) in
  let run := plot.run unix_abspath unix_dirname the_csv in
  (forall w0 : world,
      plot.interpolate_and_plot (holding text_rows) the_csv w0
      = (raised TypeError, extend w0 [call_read_csv the_csv]))
  /\
  figure (plot.wld (plot.glob s)) = Some (heatmap square)
  /\
  figure (plot.wld (plot.glob (run (main_steps 2) s)))
  = Some (heatmap square)
  /\
  filter is_print (trace (plot.wld (plot.glob (run (main_steps 2) s)))) = []
  /\
  plot.where_ (run (main_steps 2) s) = plot.at_finally (Some TypeError)
  /\
  plot.where_ (run (main_steps 2) s) <> plot.at_pause
  /\
  plot.where_ (run (main_steps 3) s) = plot.exited (plot.traceback TypeError)
  /\
  plot.observer (run (main_steps 3) s) = plot.stopped.
Proof.
  intros s run.
  assert (P : forall w0 : world,
             plot.interpolate_and_plot (holding text_rows) the_csv w0
             = (raised TypeError, extend w0 [call_read_csv the_csv]))
    by (intros w0; reflexivity).
  assert (E2 : run (main_steps 2) s
               = plot.goto (plot.at_finally (Some TypeError))
                   (plot.with_world
                      (extend (plot.wld (plot.glob s)) [call_read_csv the_csv])
                      s)).
  { subst run. cbn [main_steps repeat plot.run fold_left plot.step].
    rewrite (@replot_is_a_pass unix_abspath unix_dirname the_csv s eq_refl).
    change (plot.fs s) with (holding text_rows). now rewrite P. }
  assert (E3 : run (main_steps 3) s
               = plot.main_thread unix_abspath unix_dirname the_csv
                   (run (main_steps 2) s)).
  { subst run. change (main_steps 3) with (main_steps 2 ++ main_steps 1).
    now rewrite run_app. }
  split; [exact P|]. split; [reflexivity|].
  rewrite E3, E2. repeat split. discriminate.
Qed.

Lemma upright_has_one_azimuth :
  forall s s', In s upright -> In s' upright -> s_azimuth s == s_azimuth s'.
Proof.
  intros s s' [<-|[<-|[<-|[]]]] [<-|[<-|[<-|[]]]]; reflexivity.
Qed.

(** C6.  Three samples at azimuth 5: the bounds coincide, both axes are
    built, and [griddata] raises [QhullError] at line 46, which nothing
    catches.  The figure is not touched and the process ends, at start-up
    and inside the loop alike.  The same happens for any two samples. *)
Theorem C6_constant_azimuth_ends_the_process :
  plot.interpolate_and_plot (holding (frame_of upright)) the_csv plot.blank
  = (raised QhullError,
     extend plot.blank (call_read_csv the_csv :: grid_calls upright))
  /\
  lowest (azimuths_of upright) == highest (azimuths_of upright)
  /\
  plot.where_ (plot.run unix_abspath unix_dirname the_csv (main_steps 2)
                 (plot.start argv (holding (frame_of upright))))
  = plot.exited (plot.traceback QhullError)
  /\
  plot.where_ (plot.run unix_abspath unix_dirname the_csv (main_steps 3)
                 (ticking plot.at_replot false (holding (frame_of upright))))
  = plot.exited (plot.traceback QhullError)
  /\
  fst (plot.interpolate_and_plot
         (holding (frame_of [reading 0 1 0 0; reading 1 2 10 10]))
         the_csv plot.blank)
  = raised QhullError.
Proof.
  assert (Hlen : (2 <= List.length upright)%nat) by (simpl; lia).
  assert (Hpass := constant_axis_raises
                     (holding (frame_of upright)) the_csv upright plot.blank
                     eq_refl Hlen (or_introl upright_has_one_azimuth)).
  split; [exact Hpass|]. split; [reflexivity|]. split; [|split].
  - apply exception_at_start_ends_the_process. now rewrite Hpass.
  - apply exception_in_loop_ends_the_process; [reflexivity| |reflexivity].
    cbn [ticking plot.fs plot.glob plot.wld].
    now rewrite (constant_axis_raises
                   (holding (frame_of upright)) the_csv upright _
                   eq_refl Hlen (or_introl upright_has_one_azimuth)).
  - rewrite (pass_samples
               (holding (frame_of [reading 0 1 0 0; reading 1 2 10 10]))
               the_csv [reading 0 1 0 0; reading 1 2 10 10] plot.blank)
      by (reflexivity || (simpl; lia)).
    reflexivity.
Qed.

(** C9.  Started on a path where there is no file, or on a file of one
    line, the program prints its diagnostic, starts the observer, prints
    "Watching file", finds no figure number 1 at line 112 (none was ever
    opened), leaves the loop, stops the observer and exits with code 0. *)
Theorem C9_initial_failure_ends_the_process :
  (let s := plot.run unix_abspath unix_dirname the_csv (main_steps 5)
              (plot.start argv no_files) in
   plot.where_ s = plot.exited (plot.exit_code 0) /\
   plot.observer s = plot.stopped /\
   plot.wld (plot.glob s)
   = {| figure := None; close_clicked := false;
        trace := [call_read_csv the_csv;
                  call_print (msg_failed_to_read the_csv FileNotFoundError);
                  call_print (msg_watching the_csv)] |})
  /\
  (let s := plot.run unix_abspath unix_dirname the_csv (main_steps 5)
              (plot.start argv (holding (frame_of lonely))) in
   plot.where_ s = plot.exited (plot.exit_code 0) /\
   plot.observer s = plot.stopped /\
   plot.wld (plot.glob s)
   = {| figure := None; close_clicked := false;
        trace := [call_read_csv the_csv;
                  call_print msg_not_enough_data;
                  call_print (msg_watching the_csv)] |}).
Proof. repeat split. Qed.

(* ------------------------------------------------------------------ *)
(** ** More on the refresh pass *)

(** Lines 27-72 on any frame: when an exception leaves them, the figure,
    the pending click and the printed lines are what they were. *)
Lemma plot_frame_raises df w e :
  fst (plot.plot_frame df w) = raised e ->
  figure (snd (plot.plot_frame df w)) = figure w /\
  close_clicked (snd (plot.plot_frame df w)) = close_clicked w /\
  filter is_print (trace (snd (plot.plot_frame df w)))
  = filter is_print (trace w).
Proof.
  unfold plot.plot_frame.
  destruct (List.length df <? 2)%nat; [discriminate|].
  destruct (np.to_numpy (pd.column pd.azimuth df)) as [[|x xs]|[|c cs]];
    try (cbn -[np.linspace_f64 scipy.griddata_f64 scipy.degenerate
                np.qmin np.qmax]; auto; fail).
  - destruct (np.to_numpy (pd.column pd.elevation df)) as [[|y ys]|[|c cs]];
      try (cbn -[np.linspace_f64 scipy.griddata_f64 scipy.degenerate
                np.qmin np.qmax]; auto; fail).
    + destruct (np.to_numpy (pd.column pd.power df)) as [vs|vs].
      * cbn -[np.linspace_f64 scipy.griddata_f64 scipy.degenerate
              np.qmin np.qmax].
        destruct (scipy.degenerate _);
          cbn -[np.linspace_f64 scipy.griddata_f64 np.qmin np.qmax];
          [|discriminate].
        intros _. repeat split. rewrite !filter_app. cbn.
        now rewrite !app_nil_r.
      * cbn -[np.linspace_f64 np.qmin np.qmax].
        intros _. repeat split. rewrite !filter_app. cbn.
        now rewrite !app_nil_r.
    + cbn -[np.linspace_f64 np.qmin np.qmax].
      intros _. repeat split. rewrite !filter_app. cbn.
      now rewrite !app_nil_r.
  - destruct (np.to_numpy (pd.column pd.elevation df)) as [[|y ys]|[|c' cs']];
      cbn -[np.linspace_f64 scipy.griddata_f64 scipy.degenerate
            np.qmin np.qmax]; auto.
Qed.

(** X8.  Whatever the file holds, a pass that ends in an exception has not
    touched the figure and has printed nothing: every statement that can
    raise (lines 22-51) comes before the first pyplot call (line 54). *)
Theorem X8_exception_leaves_figure_and_console
  (fs : pd.filesystem) (csv_file : path) (w : world) (e : exn) :
  fst (plot.interpolate_and_plot fs csv_file w) = raised e ->
  figure (snd (plot.interpolate_and_plot fs csv_file w)) = figure w /\
  close_clicked (snd (plot.interpolate_and_plot fs csv_file w))
  = close_clicked w /\
  filter is_print (trace (snd (plot.interpolate_and_plot fs csv_file w)))
  = filter is_print (trace w).
Proof.
  rewrite interpolate_and_plot_unfold. unfold plot.after_load.
  destruct (pd.read_csv fs csv_file) as [df|e'] eqn:Hread.
  - intros H. destruct (plot_frame_raises _ _ H) as (H1 & H2 & H3).
    rewrite H1, H2, H3. repeat split.
    unfold extend; cbn. rewrite filter_app; cbn. apply app_nil_r.
  - rewrite (read_csv_raises_Exception _ _ Hread). discriminate.
Qed.

(** X7.  The pass never reads the [time] column: two files whose rows agree
    on power, azimuth and elevation give the same pass, whatever their time
    fields hold. *)
Theorem X7_time_column_is_never_read
  (fs fs' : pd.filesystem) (csv_file : path) (df df' : pd.DataFrame)
  (w : world) :
  pd.read_csv fs csv_file = ok df ->
  pd.read_csv fs' csv_file = ok df' ->
  pd.column pd.power df = pd.column pd.power df' ->
  pd.column pd.azimuth df = pd.column pd.azimuth df' ->
  pd.column pd.elevation df = pd.column pd.elevation df' ->
  plot.interpolate_and_plot fs csv_file w
  = plot.interpolate_and_plot fs' csv_file w.
Proof.
  intros Hr Hr' Hp Ha He.
  rewrite !interpolate_and_plot_unfold, Hr, Hr'.
  unfold plot.after_load, plot.plot_frame.
  assert (Hlen : List.length df = List.length df').
  { rewrite <- (length_map pd.power df), <- (length_map pd.power df').
    unfold pd.column in Hp. now rewrite Hp. }
  now rewrite Hlen, Hp, Ha, He.
Qed.

(** X6.  A pass that draws leaves a figure that depends on the samples
    alone: [plt.clf] (line 54) drops whatever was shown, and the new figure
    holds, in this order, the image of the interpolated grid with the
    bounds as extent, the colour bar labelled "Power", the scatter of the
    raw azimuths and elevations in file order, the two axis labels and the
    title.  A second pass over the same file, from any earlier figure,
    draws too and leaves the same figure. *)
Theorem X6_drawn_figure_depends_on_samples_only
  (fs : pd.filesystem) (csv_file : path) (ss : SampleSet) (w w' : world) :
  pd.read_csv fs csv_file = ok (frame_of ss) ->
  (2 <= List.length ss)%nat ->
  fst (plot.interpolate_and_plot fs csv_file w) = ok tt ->
  figure (snd (plot.interpolate_and_plot fs csv_file w)) = Some (heatmap ss)
  /\ fst (plot.interpolate_and_plot fs csv_file w') = ok tt
  /\ figure (snd (plot.interpolate_and_plot fs csv_file w'))
     = Some (heatmap ss)
  /\ figure (snd (plot.interpolate_and_plot
                    fs csv_file
                    (snd (plot.interpolate_and_plot fs csv_file w))))
     = Some (heatmap ss).
Proof.
  intros Hread Hlen.
  rewrite !(pass_samples _ _ _ _ Hread Hlen).
  destruct (scipy.degenerate (samples_of ss)); [discriminate|].
  intros _. repeat split.
Qed.

(* ------------------------------------------------------------------ *)
(** ** More on the two threads *)

Section Further.

Variable abspath : path -> path.
Variable dirname : path -> path.
Variable csv_file : path.

Local Abbreviation step := (plot.step abspath dirname csv_file).
Local Abbreviation run := (plot.run abspath dirname csv_file).
Local Abbreviation main_thread := (plot.main_thread abspath dirname csv_file).
Local Abbreviation deliver := (plot.deliver abspath).

(** *** The observer along [main] *)

Lemma observer_in_step_kept l s :
  observer_in_step abspath dirname csv_file s ->
  observer_in_step abspath dirname csv_file (step l s).
Proof.
  unfold observer_in_step. destruct s as [p o f [b w]].
  destruct l; cbn [plot.step].
  - unfold plot.main_thread; cbn [plot.where_ plot.glob plot.wld plot.fs].
    destruct p as [ |r| | | | | |r| |pend|st]; cbn; auto;
      try (destruct (plot.after_load csv_file r w) as [[[]|[]] w'];
           cbn; auto; fail);
      try (destruct (figure w); cbn; auto; fail);
      try (destruct b; cbn; auto; fail);
      try (destruct (plt.pause w); cbn; auto; fail);
      try (destruct pend as [[]|]; cbn; auto; fail).
  - destruct (deliver_frame abspath ev
                {| plot.where_ := p; plot.observer := o; plot.fs := f;
                   plot.glob := {| plot.file_changed := b; plot.wld := w |} |})
      as (H1 & H2 & _).
    rewrite H1, H2. auto.
  - auto.
  - unfold plot.click; cbn. destruct (figure w); auto.
  - unfold plot.interrupt; cbn. destruct p; cbn; auto.
Qed.

Lemma observer_in_step_run sched : forall s,
  observer_in_step abspath dirname csv_file s ->
  observer_in_step abspath dirname csv_file (run sched s).
Proof.
  induction sched as [|l sched IH]; intros s H; [exact H|].
  apply IH. now apply observer_in_step_kept.
Qed.

Lemma observer_in_step_start argv0 files :
  observer_in_step abspath dirname csv_file
                   (plot.start [argv0; csv_file] files).
Proof. reflexivity. Qed.

Lemma observer_by_place s :
  observer_in_step abspath dirname csv_file s ->
  (before_loop (plot.where_ s) = true -> plot.observer s = plot.not_started)
  /\
  (in_loop (plot.where_ s) = true ->
   plot.observer s = plot.started (plot.new_handler abspath csv_file)
                                  (dirname (abspath csv_file)))
  /\
  (forall n, plot.where_ s = plot.exited (plot.exit_code n) ->
     n = 0%nat /\ plot.observer s = plot.stopped)
  /\
  (forall e, plot.where_ s = plot.exited (plot.traceback e) ->
     e <> KeyboardInterrupt ->
     plot.observer s = plot.not_started \/ plot.observer s = plot.stopped).
Proof.
  unfold observer_in_step. destruct s as [p o f g].
  cbn [plot.where_ plot.observer]. intros H.
  split; [|split; [|split]].
  - destruct p; intros E; try discriminate E; exact H.
  - destruct p; intros E; try discriminate E; exact H.
  - intros n E. subst p. exact H.
  - intros e E Hne. subst p. destruct e; try exact H. congruence.
Qed.

Lemma not_started_before_loop (argv0 : string) (files : pd.filesystem)
  (sched : list plot.label) :
  before_loop (plot.where_ (run sched (plot.start [argv0; csv_file] files)))
  = true ->
  plot.observer (run sched (plot.start [argv0; csv_file] files))
  = plot.not_started.
Proof.
  apply observer_by_place, observer_in_step_run, observer_in_step_start.
Qed.

(** X4.  Whenever the main thread is inside the loop, the observer is
    running with the handler [main] made: its target is the absolute path
    of [csv_file] and it watches the directory of that path.  Before the
    loop the observer has not been started. *)
Theorem X4_observer_runs_throughout_the_loop
  (argv0 : string) (files : pd.filesystem) (sched : list plot.label) :
  (in_loop (plot.where_ (run sched (plot.start [argv0; csv_file] files)))
   = true ->
   plot.observer (run sched (plot.start [argv0; csv_file] files))
   = plot.started {| plot.target_path := abspath csv_file |}
                  (dirname (abspath csv_file)))
  /\
  (before_loop (plot.where_ (run sched (plot.start [argv0; csv_file] files)))
   = true ->
   plot.observer (run sched (plot.start [argv0; csv_file] files))
   = plot.not_started).
Proof.
  destruct (@observer_by_place _
              (observer_in_step_run sched _
                 (observer_in_step_start argv0 files)))
    as (H1 & H2 & _).
  split; [exact H2 | exact H1].
Qed.

(** X3.  However the process comes to its end, the observer is not left
    running: after an exit with a code the code is 0 and the observer has
    been stopped (lines 123-125), and after an exception other than
    [KeyboardInterrupt] it was never started or has been stopped. *)
Theorem X3_observer_is_stopped_at_exit
  (argv0 : string) (files : pd.filesystem) (sched : list plot.label)
  (st : plot.exit_status) :
  plot.where_ (run sched (plot.start [argv0; csv_file] files))
  = plot.exited st ->
  (forall n, st = plot.exit_code n ->
     n = 0%nat /\
     plot.observer (run sched (plot.start [argv0; csv_file] files))
     = plot.stopped)
  /\
  (forall e, st = plot.traceback e -> e <> KeyboardInterrupt ->
     plot.observer (run sched (plot.start [argv0; csv_file] files))
     = plot.not_started \/
     plot.observer (run sched (plot.start [argv0; csv_file] files))
     = plot.stopped).
Proof.
  destruct (@observer_by_place _
              (observer_in_step_run sched _
                 (observer_in_step_start argv0 files)))
    as (_ & _ & H3 & H4).
  intros E. split.
  - intros n ->. now apply H3.
  - intros e -> Hne. now apply H4 with e.
Qed.

(** X5.  The observer is started after the initial pass (line 104 after
    line 96): an event that arrives before that, whatever its path and
    kind, changes nothing, so a change made to the file while the initial
    pass runs is not announced. *)
Theorem X5_events_before_the_loop_are_lost
  (argv0 : string) (files : pd.filesystem) (sched : list plot.label)
  (ev : watchdog.FileSystemEvent) :
  before_loop (plot.where_ (run sched (plot.start [argv0; csv_file] files)))
  = true ->
  step (plot.fs_event ev) (run sched (plot.start [argv0; csv_file] files))
  = run sched (plot.start [argv0; csv_file] files).
Proof.
  intros Hb.
  pose proof (not_started_before_loop argv0 files sched Hb) as Ho.
  cbn [plot.step]. unfold plot.deliver. rewrite Ho.
  now destruct (plot.where_ _).
Qed.

(** *** The flag and the passes *)

(** X9.  A set flag is cleared by line 117 and by nothing else: a step
    takes [file_changed] from [True] to [False] exactly when it is the main
    thread running line 117, and the statement the main thread runs next is
    the [read_csv] of a new pass. *)
Theorem X9_flag_cleared_only_by_line_117 (s : plot.state) (l : plot.label) :
  plot.file_changed (plot.glob s) = true ->
  (plot.file_changed (plot.glob (step l s)) = false <->
   l = plot.main_step /\ plot.where_ s = plot.at_flag_clear)
  /\
  (plot.file_changed (plot.glob (step l s)) = false ->
   plot.where_ (step l s) = plot.at_replot /\
   passes (step plot.main_step (step l s)) = S (passes (step l s))).
Proof.
  intros Hf.
  assert (Hiff : plot.file_changed (plot.glob (step l s)) = false <->
                 l = plot.main_step /\ plot.where_ s = plot.at_flag_clear).
  { destruct l; cbn [plot.step].
    - destruct s as [p o f [b w]]. cbn [plot.glob plot.file_changed] in Hf.
      subst b. unfold plot.main_thread.
      cbn [plot.where_ plot.glob plot.wld plot.fs].
      destruct p as [ |r| | | | | |r| |pend|st]; cbn;
        try (split; [discriminate | intros [_ E]; discriminate E]);
        try (split; [reflexivity | auto]; fail).
      + destruct (plot.after_load csv_file r w) as [[[]|[]] w']; cbn;
          (split; [discriminate | intros [_ E]; discriminate E]).
      + destruct (figure w); cbn;
          (split; [discriminate | intros [_ E]; discriminate E]).
      + split; auto.
      + destruct (plot.after_load csv_file r w) as [[[]|[]] w']; cbn;
          (split; [discriminate | intros [_ E]; discriminate E]).
      + destruct (plt.pause w); cbn;
          (split; [discriminate | intros [_ E]; discriminate E]).
    - destruct (deliver_frame abspath ev s) as (_ & _ & _ & _ & _ & _ & H).
      rewrite (H Hf). split; [discriminate | intros [E _]; discriminate E].
    - cbn. rewrite Hf. split; [discriminate | intros [E _]; discriminate E].
    - unfold plot.click. destruct (figure _); cbn; rewrite Hf;
        (split; [discriminate | intros [E _]; discriminate E]).
    - unfold plot.interrupt. destruct (plot.where_ s); cbn; rewrite Hf;
        (split; [discriminate | intros [E _]; discriminate E]). }
  split; [exact Hiff|].
  intros H. apply Hiff in H. destruct H as [-> Hw].
  cbn [plot.step].
  assert (Hnext : plot.where_ (main_thread s) = plot.at_replot)
    by (destruct s as [p o f g]; cbn in Hw; subst p; reflexivity).
  split; [exact Hnext|].
  rewrite (passes_main abspath dirname csv_file (main_thread s)), Hnext.
  cbn [reads]. lia.
Qed.

Lemma deliver_owed ev s :
  handler_of_main abspath csv_file s ->
  (owed (deliver ev s)
   <= owed s + (if hits abspath csv_file ev then 1 else 0))%nat /\
  (plot.file_changed (plot.glob s) = true ->
   plot.file_changed (plot.glob (deliver ev s)) = true).
Proof.
  intros Hh.
  destruct (deliver_frame abspath ev s) as (H1 & _ & _ & _ & _ & _ & H7).
  split; [|exact H7].
  unfold owed. rewrite H1.
  unfold handler_of_main in Hh. unfold plot.deliver, hits.
  destruct s as [p o f [b w]].
  cbn [plot.where_ plot.observer plot.glob plot.file_changed] in *.
  destruct o as [|h d|];
    try (destruct p; cbn [plot.glob plot.file_changed]; lia).
  subst h. unfold plot.dispatch, plot.on_modified, plot.new_handler.
  cbn [plot.target_path].
  destruct p; cbn [plot.glob plot.file_changed]; try lia;
    destruct (watchdog.kind ev); cbn [plot.file_changed]; try lia;
    destruct (String.eqb _ _); cbn [plot.file_changed];
    destruct b; lia.
Qed.

(** One step: the passes begun and owed grow by at most one, and only when
    the step announces a change. *)
Lemma step_owed l s :
  handler_of_main abspath csv_file s -> clears_a_set_flag s ->
  (passes (step l s) + owed (step l s)
   <= passes s + owed s + (if is_hit abspath csv_file l then 1 else 0))%nat
  /\ clears_a_set_flag (step l s).
Proof.
  intros Hh Hc. destruct l; cbn [plot.step is_hit].
  - rewrite passes_main. unfold clears_a_set_flag, owed in *.
    destruct s as [p o f [b w]].
    cbn [plot.where_ plot.glob plot.file_changed] in *.
    unfold plot.main_thread. cbn [plot.where_ plot.glob plot.wld plot.fs].
    destruct p as [ |r| | | | | |r| |pend|st]; cbn [reads].
    + cbn. split; [destruct b; lia | discriminate].
    + destruct (plot.after_load csv_file r w) as [[[]|[]] w']; cbn;
        (split; [destruct b; lia | discriminate]).
    + cbn. split; [destruct b; lia | discriminate].
    + cbn. destruct (figure w); cbn;
        (split; [destruct b; lia | discriminate]).
    + destruct b; cbn; (split; [lia | (reflexivity || discriminate)]).
    + rewrite (Hc eq_refl). cbn. split; [lia | discriminate].
    + cbn. split; [destruct b; lia | discriminate].
    + destruct (plot.after_load csv_file r w) as [[[]|[]] w']; cbn;
        (split; [destruct b; lia | discriminate]).
    + destruct (plt.pause w); cbn. split; [destruct b; lia | discriminate].
    + cbn. split; [destruct b; lia | discriminate].
    + cbn. split; [destruct b; lia | discriminate].
  - destruct (deliver_frame abspath ev s) as (H1 & _ & _ & _ & _ & H6 & _).
    destruct (@deliver_owed ev s Hh) as [Ho Hf].
    split; [lia|].
    unfold clears_a_set_flag in *. rewrite H1. auto.
  - split; [|exact Hc]. unfold passes, owed; cbn. lia.
  - unfold plot.click, clears_a_set_flag, passes, owed in *.
    destruct (figure _); cbn; split; auto; lia.
  - unfold plot.interrupt, clears_a_set_flag, passes, owed in *.
    destruct s as [p o f [b w]]; cbn in *.
    destruct p; cbn; split; try discriminate; destruct b; lia.
Qed.

Lemma run_owed sched : forall s,
  handler_of_main abspath csv_file s -> clears_a_set_flag s ->
  (passes (run sched s) + owed (run sched s)
   <= passes s + owed s + announcements abspath csv_file sched)%nat.
Proof.
  induction sched as [|l sched IH]; intros s Hh Hc.
  - unfold announcements; simpl. lia.
  - rewrite (run_cons abspath dirname csv_file).
    destruct (@step_owed l s Hh Hc) as [Hs Hc'].
    pose proof (IH (step l s)
                   (@handler_step abspath dirname csv_file l s Hh) Hc') as Hr.
    unfold announcements in *. cbn [filter].
    destruct (is_hit abspath csv_file l); cbn [List.length]; lia.
Qed.

(** X10.  No pass without a cause: at any moment the passes begun number at
    most one (the initial pass) more than the matching modification events
    handed to the handler so far. *)
Theorem X10_passes_bounded_by_announcements
  (argv0 : string) (files : pd.filesystem) (sched : list plot.label) :
  (passes (run sched (plot.start [argv0; csv_file] files))
   <= 1 + announcements abspath csv_file sched)%nat.
Proof.
  pose proof (@run_owed sched (plot.start [argv0; csv_file] files)
                (handler_start abspath csv_file [argv0; csv_file] files))
    as H.
  assert (Hc : clears_a_set_flag (plot.start [argv0; csv_file] files))
    by (intros E; discriminate E).
  specialize (H Hc).
  change (passes (plot.start [argv0; csv_file] files)) with 0%nat in H.
  change (owed (plot.start [argv0; csv_file] files)) with 1%nat in H.
  lia.
Qed.

(** *** Closing the window *)

Lemma to_exit_zero s : closing s -> to_exit s = 0%nat ->
  exists st, plot.where_ s = plot.exited st.
Proof.
  unfold closing, to_exit. destruct s as [p o f [b w]].
  cbn [plot.where_ plot.glob plot.wld].
  intros [Hg|[Hl _]] Hz; destruct p; try discriminate; eauto.
  destruct (figure w); discriminate.
Qed.

Lemma closing_main s :
  closing s ->
  closing (main_thread s) /\ (to_exit (main_thread s) <= to_exit s - 1)%nat.
Proof.
  unfold closing, to_exit. destruct s as [p o f [b w]].
  cbn [plot.where_ plot.glob plot.wld].
  intros [Hg|[Hl Hc]].
  - destruct p as [ |r| | | | | |r| |pend|st]; try discriminate; cbn;
      (split; [left; reflexivity | lia]).
  - unfold plot.main_thread. cbn [plot.where_ plot.glob plot.wld plot.fs].
    destruct p as [ |r| | | | | |r| |pend|st]; try discriminate.
    + cbn. destruct (figure w) eqn:Hfig; cbn.
      * destruct Hc as [Hc|[_ Hc]]; [|discriminate].
        split; [right; auto | lia].
      * split; [left; reflexivity | lia].
    + destruct Hc as [Hc|[Hc _]]; [|discriminate].
      destruct b; cbn; (split; [right; auto | lia]).
    + destruct Hc as [Hc|[Hc _]]; [|discriminate].
      cbn. split; [right; auto | lia].
    + destruct Hc as [Hc|[Hc _]]; [|discriminate].
      cbn. split; [right; auto | lia].
    + destruct Hc as [Hc|[Hc _]]; [|discriminate].
      pose proof (keeps_click_after_load csv_file r w) as Hk.
      destruct (plot.after_load csv_file r w) as [[[]|[]] w'];
        cbn [snd] in Hk; cbn;
        try (split; [left; reflexivity | lia]).
      split; [right; split; [reflexivity | left; congruence] | lia].
    + destruct Hc as [Hc|[Hc _]]; [|discriminate].
      unfold plt.pause. rewrite Hc. cbn. split; [right; auto | lia].
Qed.

Lemma closing_other l s :
  is_main l = false -> closing s ->
  closing (step l s) /\ (to_exit (step l s) <= to_exit s)%nat.
Proof.
  intros Hl Hc. destruct l; try discriminate; cbn [plot.step].
  - destruct (deliver_frame abspath ev s) as (H1 & _ & _ & H4 & H5 & _).
    unfold closing, to_exit in *. rewrite H1, H4, H5. split; [exact Hc | lia].
  - split; [exact Hc | apply Nat.le_refl].
  - unfold plot.click, closing, to_exit in *.
    destruct s as [p o f [b [fig cc tr]]]; cbn in *.
    destruct fig; cbn; split; try lia; try exact Hc.
    destruct Hc as [Hg|[Hl' Hc]]; [now left | right].
    split; [exact Hl' | now left].
  - unfold plot.interrupt, closing, to_exit in *.
    destruct s as [p o f [b [fig cc tr]]]; cbn in *.
    destruct p; cbn; (split; [left; reflexivity | try lia]);
      destruct Hc as [Hg|[Hl' _]]; try discriminate;
      destruct fig; lia.
Qed.

Lemma closing_progress sched : forall s n,
  closing s -> (to_exit s <= n)%nat -> (n <= main_count sched)%nat ->
  exists st, plot.where_ (run sched s) = plot.exited st.
Proof.
  induction sched as [|l sched IH]; intros s n Hc Hm Hn.
  - unfold main_count in Hn; simpl in Hn.
    cbn [plot.run fold_left].
    apply to_exit_zero; [exact Hc | lia].
  - rewrite (run_cons abspath dirname csv_file).
    destruct (is_main l) eqn:El.
    + destruct l; try discriminate. cbn [plot.step].
      destruct (closing_main Hc) as [Hc' Hm'].
      unfold main_count in Hn. cbn [filter is_main List.length] in Hn.
      fold (main_count sched) in Hn.
      apply IH with (n := (n - 1)%nat); auto; lia.
    + destruct (closing_other l El Hc) as [Hc' Hm'].
      unfold main_count in Hn. cbn [filter] in Hn. rewrite El in Hn.
      fold (main_count sched) in Hn.
      apply IH with (n := n); auto; lia.
Qed.

(** X2.  Closing the window ends the process: from any point of the loop,
    once the user has clicked the close button of the open window, the
    process has exited by the time the main thread has run eight more
    statements, whatever else happens in between (events, rewrites of the
    file, passes that draw or fail, Ctrl-C). *)
Theorem X2_closing_the_window_ends_the_process
  (s : plot.state) (arts : list artist) (sched : list plot.label) :
  in_loop (plot.where_ s) = true ->
  figure (plot.wld (plot.glob s)) = Some arts ->
  (8 <= main_count sched)%nat ->
  exists st,
    plot.where_ (run sched (step plot.click_close s)) = plot.exited st.
Proof.
  intros Hl Hfig Hn.
  apply closing_progress with (n := 8%nat); auto.
  - right. cbn [plot.step]. unfold plot.click. rewrite Hfig.
    split; [exact Hl | left; reflexivity].
  - cbn [plot.step]. unfold plot.click, to_exit. rewrite Hfig.
    destruct s as [p o f [b w]]; cbn in *.
    destruct p; try discriminate; try lia; rewrite ?Hfig; lia.
Qed.

(** *** The usage error *)

Lemma exited_step l s st :
  plot.where_ s = plot.exited st ->
  plot.where_ (step l s) = plot.exited st /\
  plot.observer (step l s) = plot.observer s /\
  plot.file_changed (plot.glob (step l s)) = plot.file_changed (plot.glob s) /\
  trace (plot.wld (plot.glob (step l s))) = trace (plot.wld (plot.glob s)) /\
  figure (plot.wld (plot.glob (step l s))) = figure (plot.wld (plot.glob s)).
Proof.
  destruct s as [p o f [b [fig cc tr]]]. cbn [plot.where_]. intros ->.
  destruct l; cbn; try (repeat split; fail).
  unfold plot.click. cbn. destruct fig; cbn; repeat split.
Qed.

(** X1.  Started without a path (lines 128-130), the program prints the
    usage line and exits with code 1: it reads no file, opens no figure and
    starts no observer, and nothing that happens afterwards changes that. *)
Theorem X1_missing_argument_is_a_usage_error
  (argv : list string) (files : pd.filesystem) (sched : list plot.label) :
  (List.length argv < 2)%nat ->
  plot.where_ (run sched (plot.start argv files))
  = plot.exited (plot.exit_code 1) /\
  plot.observer (run sched (plot.start argv files)) = plot.not_started /\
  plot.file_changed (plot.glob (run sched (plot.start argv files))) = false /\
  trace (plot.wld (plot.glob (run sched (plot.start argv files))))
  = [call_print msg_usage] /\
  figure (plot.wld (plot.glob (run sched (plot.start argv files)))) = None.
Proof.
  intros Hlen.
  assert (H0 : plot.where_ (plot.start argv files)
               = plot.exited (plot.exit_code 1) /\
               plot.observer (plot.start argv files) = plot.not_started /\
               plot.file_changed (plot.glob (plot.start argv files)) = false /\
               trace (plot.wld (plot.glob (plot.start argv files)))
               = [call_print msg_usage] /\
               figure (plot.wld (plot.glob (plot.start argv files))) = None).
  { destruct argv as [|a [|b rest]]; simpl in Hlen; try lia;
      repeat split. }
  revert H0. generalize (plot.start argv files).
  induction sched as [|l sched IH]; intros s Hs; [exact Hs|].
  rewrite (run_cons abspath dirname csv_file). apply IH.
  destruct Hs as (H1 & H2 & H3 & H4 & H5).
  destruct (exited_step l s H1) as (E1 & E2 & E3 & E4 & E5).
  rewrite E1, E2, E3, E4, E5. auto.
Qed.

End Further.

(* ------------------------------------------------------------------ *)
(** ** More worked runs *)

Lemma X1_witness :
  plot.where_ (plot.run unix_abspath unix_dirname the_csv
                 [plot.main_step; plot.fs_event (touched the_csv);
                  plot.click_close; plot.main_step]
                 (plot.start ["plot.py"%string] no_files))
  = plot.exited (plot.exit_code 1)
  /\
  trace (plot.wld (plot.glob
           (plot.run unix_abspath unix_dirname the_csv
              [plot.main_step; plot.fs_event (touched the_csv);
               plot.click_close; plot.main_step]
              (plot.start ["plot.py"%string] no_files))))
  = [call_print msg_usage].
Proof.
  assert (Hlen : (List.length ["plot.py"%string] < 2)%nat) by (simpl; lia).
  destruct (X1_missing_argument_is_a_usage_error
              unix_abspath unix_dirname the_csv ["plot.py"%string] no_files
              [plot.main_step; plot.fs_event (touched the_csv);
               plot.click_close; plot.main_step] Hlen)
    as (H1 & _ & _ & H4 & _).
  split; [exact H1 | exact H4].
Defined.

Lemma X2_witness :
  exists st,
    plot.where_
      (plot.run unix_abspath unix_dirname the_csv
         (main_steps 4 ++ [plot.fs_event (touched the_csv)] ++ main_steps 4)
         (plot.step unix_abspath unix_dirname the_csv plot.click_close
            (ticking plot.at_flag_test true (holding (frame_of square)))))
    = plot.exited st.
Proof.
  assert (Hn : (8 <= main_count (main_steps 4
                                 ++ [plot.fs_event (touched the_csv)]
                                 ++ main_steps 4))%nat)
    by (vm_compute; lia).
  exact (X2_closing_the_window_ends_the_process
           unix_abspath unix_dirname the_csv
           (ticking plot.at_flag_test true (holding (frame_of square)))
           (arts := heatmap square) _ eq_refl eq_refl Hn).
Defined.

Lemma X3_witness :
  plot.observer (plot.run unix_abspath unix_dirname the_csv (main_steps 5)
                   (plot.start argv no_files))
  = plot.stopped.
Proof.
  destruct (X3_observer_is_stopped_at_exit
              unix_abspath unix_dirname the_csv "plot.py"%string no_files
              (main_steps 5) (st := plot.exit_code 0) eq_refl) as [H _].
  exact (proj2 (H 0%nat eq_refl)).
Defined.

Lemma X4_witness :
  plot.observer (plot.run unix_abspath unix_dirname the_csv (main_steps 3)
                   (plot.start argv no_files))
  = plot.started {| plot.target_path := "/home/op/data.csv"%string |}
                 "/home/op"%string.
Proof.
  exact (proj1 (X4_observer_runs_throughout_the_loop
                  unix_abspath unix_dirname the_csv "plot.py"%string no_files
                  (main_steps 3)) eq_refl).
Defined.

Lemma X5_witness :
  plot.step unix_abspath unix_dirname the_csv
    (plot.fs_event (touched the_csv))
    (plot.run unix_abspath unix_dirname the_csv [plot.main_step]
       (plot.start argv no_files))
  = plot.run unix_abspath unix_dirname the_csv [plot.main_step]
      (plot.start argv no_files).
Proof.
  exact (X5_events_before_the_loop_are_lost
           unix_abspath unix_dirname the_csv "plot.py"%string no_files
           [plot.main_step] (touched the_csv) eq_refl).
Defined.

Lemma X6_witness :
  figure (snd (plot.interpolate_and_plot
                 (holding (frame_of square)) the_csv
                 {| figure := Some (heatmap corner);
                    close_clicked := false;
                    trace := [call_draw] |}))
  = Some (heatmap square).
Proof.
  assert (Hlen : (2 <= List.length square)%nat) by (simpl; lia).
  destruct (X6_drawn_figure_depends_on_samples_only
              (holding (frame_of square)) the_csv square plot.blank
              {| figure := Some (heatmap corner);
                 close_clicked := false;
                 trace := [call_draw] |}
              eq_refl Hlen square_pass_draws) as (_ & _ & H & _).
  exact H.
Defined.

Lemma X7_witness :
  plot.interpolate_and_plot (holding (frame_of corner)) the_csv plot.blank
  = plot.interpolate_and_plot (holding stamped) the_csv plot.blank.
Proof.
  exact (X7_time_column_is_never_read
           (holding (frame_of corner)) (holding stamped) the_csv
           (df := frame_of corner) (df' := stamped) plot.blank
           eq_refl eq_refl eq_refl eq_refl eq_refl).
Defined.

Lemma X8_witness :
  figure (snd (plot.interpolate_and_plot
                 (holding text_rows) the_csv
                 (plot.wld (plot.glob
                    (ticking plot.at_replot false (holding text_rows))))))
  = Some (heatmap square).
Proof.
  destruct (X8_exception_leaves_figure_and_console
              (holding text_rows) the_csv
              (plot.wld (plot.glob
                 (ticking plot.at_replot false (holding text_rows))))
              (e := TypeError) eq_refl) as [H _].
  exact H.
Defined.

Lemma X9_witness :
  plot.file_changed
    (plot.glob (plot.step unix_abspath unix_dirname the_csv plot.main_step
                  (ticking plot.at_flag_clear true no_files)))
  = false.
Proof.
  destruct (X9_flag_cleared_only_by_line_117
              unix_abspath unix_dirname the_csv
              (ticking plot.at_flag_clear true no_files) plot.main_step
              eq_refl) as [H _].
  exact (proj2 H (conj eq_refl eq_refl)).
Defined.

